(** * tutor-legacyfrontends: the plugin module and its registrations

    [tutorlegacyfrontends/plugin.py] is a Tutor plugin.  Importing the module
    runs a straight sequence of calls into the host's filter registry
    ([hooks.Filters.X.add_item], [hooks.Filters.X.add_items]) and, for every
    declared initialization task, reads a template file with the builtin
    [open].

    The module is embedded as a program over the calls it makes ([Prog], a
    free monad over [call]); the host and the file system interpret the
    calls.  Python [str] values are held as Rocq strings containing their
    UTF-8 encoding (all literals of the module are ASCII), file contents as
    Rocq strings containing the file's bytes. *)

From Stdlib Require Import String Ascii List ZArith NArith Bool Lia Permutation.
Import ListNotations.

Set Warnings "-register-all".

Local Open Scope string_scope.
Local Open Scope list_scope.

(** ** Python values and exceptions *)

(** The values the module hands to the host: strings and tuples. *)
Inductive value : Type :=
| Str (s : string)
| Tuple (items : list value).

(** The error numbers with which the operating system refuses to open a
    path, as [errno] names them. *)
Definition ENOENT : N := 2.
Definition EACCES : N := 13.
Definition ENOTDIR : N := 20.
Definition EISDIR : N := 21.

(** The exceptions the builtins used by the module raise: [OSError] with
    the error number and the file name, and the decoding error.  Nothing
    in the module handles an exception. *)
Inductive exn : Type :=
| OSError (errno : N) (filename : string)
| UnicodeDecodeError.

(** The subclasses of [OSError] that [open] raises for these error
    numbers. *)
Definition FileNotFoundError : string -> exn := OSError ENOENT.
Definition PermissionError : string -> exn := OSError EACCES.
Definition NotADirectoryError : string -> exn := OSError ENOTDIR.
Definition IsADirectoryError : string -> exn := OSError EISDIR.

(** What the file system has at a path: a regular file that can be opened
    for reading, with its bytes, or the error number that opening the path
    fails with ([ENOENT] where nothing is, [EISDIR] at a directory,
    [EACCES] at a file that may not be read, and so on). *)
Inductive node : Type :=
| Regular (bytes : string)
| Failing (errno : N).

(** A text file object as returned by [open(path, encoding="utf-8")]: the
    path it was opened from and the bytes it holds. *)
Record TextIOWrapper : Type := mkTextIO {
  name : string;
  buffer : string
}.

(** ** The host's filters named by the module *)

Module hooks.
Module Filters.
Inductive t : Type :=
| ENV_PATCHES
| CONFIG_DEFAULTS
| CONFIG_UNIQUE
| CONFIG_OVERRIDES
| CLI_DO_INIT_TASKS
| IMAGES_BUILD
| IMAGES_PULL
| IMAGES_PUSH
| ENV_TEMPLATE_ROOTS
| ENV_TEMPLATE_TARGETS.

Definition eqb (a b : t) : bool :=
  match a, b with
  | ENV_PATCHES, ENV_PATCHES
  | CONFIG_DEFAULTS, CONFIG_DEFAULTS
  | CONFIG_UNIQUE, CONFIG_UNIQUE
  | CONFIG_OVERRIDES, CONFIG_OVERRIDES
  | CLI_DO_INIT_TASKS, CLI_DO_INIT_TASKS
  | IMAGES_BUILD, IMAGES_BUILD
  | IMAGES_PULL, IMAGES_PULL
  | IMAGES_PUSH, IMAGES_PUSH
  | ENV_TEMPLATE_ROOTS, ENV_TEMPLATE_ROOTS
  | ENV_TEMPLATE_TARGETS, ENV_TEMPLATE_TARGETS => true
  | _, _ => false
  end.
End Filters.
End hooks.
Import hooks.

(** ** Calls and programs *)

(** The calls a plugin module can make: the three operations of a host
    filter (two that append, one that reads the aggregate back), and what
    a [with open(...) as f] statement around a read does: open the file,
    read it, close it, and raise again the exception of the read if there
    was one.  [priority = None] is Python's default argument. *)
Inductive call : Type :=
| add_item (f : Filters.t) (item : value) (priority : option Z)
| add_items (f : Filters.t) (items : list value) (priority : option Z)
| iterate (f : Filters.t)
| open (file : string) (encoding : string)
| read (f : TextIOWrapper)
| close (f : TextIOWrapper)
| raise (e : exn).

(** What each call returns when it does not raise.  A read is the body of
    a with statement: the text it returns or the exception it raises goes
    to the with statement, which closes the file first.  [raise] never
    returns. *)
Definition response (c : call) : Type :=
  match c with
  | add_item _ _ _ => unit
  | add_items _ _ _ => unit
  | iterate _ => list value
  | open _ _ => TextIOWrapper
  | read _ => (exn + string)%type
  | close _ => unit
  | raise _ => Empty_set
  end.

(** A program: return, or make a call and go on with its result. *)
Inductive Prog (A : Type) : Type :=
| Ret (a : A)
| Call (c : call) (k : response c -> Prog A).

Arguments Ret {A} a.
Arguments Call {A} c k.

Fixpoint bind {A B : Type} (p : Prog A) (f : A -> Prog B) : Prog B :=
  match p with
  | Ret a => f a
  | Call c k => Call c (fun x => bind (k x) f)
  end.

Definition perform (c : call) : Prog (response c) := Call c Ret.

Notation "x <- p ;; q" := (bind p (fun x => q))
  (at level 61, p at next level, right associativity).
Notation "p ;; q" := (bind p (fun _ => q))
  (at level 61, right associativity).

(** The end of a with statement, after the file is closed: go on with the
    result of the body, or raise its exception again. *)
Definition reraise {A : Type} (outcome : exn + A) : Prog A :=
  match outcome with
  | inr a => Ret a
  | inl e => Call (raise e) (fun x : Empty_set => match x with end)
  end.

(** [for x in l: body(x)] *)
Fixpoint for_each {B : Type} (l : list B) (body : B -> Prog unit) : Prog unit :=
  match l with
  | [] => Ret tt
  | x :: rest => body x ;; for_each rest body
  end.

(** ** [os.path.join] (POSIX) *)

Module posixpath.
Definition sep : string := "/".

Fixpoint endswith_sep (s : string) : bool :=
  match s with
  | EmptyString => false
  | String c EmptyString => Ascii.eqb c "/"
  | String _ rest => endswith_sep rest
  end.

(** One round of the loop of [posixpath.join]: a component that starts
    with the separator replaces the path so far; otherwise it is appended,
    with a separator unless the path is empty or already ends in one. *)
Definition join_step (path b : string) : string :=
  if String.prefix sep b then b
  else if (path =? "") || endswith_sep path then path ++ b
  else path ++ sep ++ b.

Definition join (a : string) (p : list string) : string :=
  fold_left join_step p a.
End posixpath.

(** ** The text-file builtins *)

Module builtins.
Definition CR : ascii := "013"%char.
Definition LF : ascii := "010"%char.

Definition byte_in (lo hi : N) (c : ascii) : bool :=
  (lo <=? N_of_ascii c)%N && (N_of_ascii c <=? hi)%N.

Definition continuation : ascii -> bool := byte_in 0x80 0xBF.

(** The second byte allowed after the lead byte of a three-byte or a
    four-byte sequence: no overlong form, no surrogate, nothing above
    U+10FFFF. *)
Definition second_of_3 (b0 b1 : ascii) : bool :=
  if byte_in 0xE0 0xE0 b0 then byte_in 0xA0 0xBF b1
  else if byte_in 0xED 0xED b0 then byte_in 0x80 0x9F b1
  else continuation b1.

Definition second_of_4 (b0 b1 : ascii) : bool :=
  if byte_in 0xF0 0xF0 b0 then byte_in 0x90 0xBF b1
  else if byte_in 0xF4 0xF4 b0 then byte_in 0x80 0x8F b1
  else continuation b1.

(** The strict UTF-8 decoder accepts exactly the well-formed byte
    sequences. *)
Fixpoint utf8_valid (s : string) : bool :=
  match s with
  | EmptyString => true
  | String b0 r0 =>
    if byte_in 0x00 0x7F b0 then utf8_valid r0
    else
      match r0 with
      | EmptyString => false
      | String b1 r1 =>
        if byte_in 0xC2 0xDF b0 then continuation b1 && utf8_valid r1
        else
          match r1 with
          | EmptyString => false
          | String b2 r2 =>
            if byte_in 0xE0 0xEF b0
            then second_of_3 b0 b1 && continuation b2 && utf8_valid r2
            else
              match r2 with
              | EmptyString => false
              | String b3 r3 =>
                if byte_in 0xF0 0xF4 b0
                then second_of_4 b0 b1 && continuation b2
                     && continuation b3 && utf8_valid r3
                else false
              end
          end
      end
  end.

(** Universal newlines, the reading mode of a file opened without a
    [newline] argument: CR LF and a lone CR both come out as LF. *)
Fixpoint universal_newlines (s : string) : string :=
  match s with
  | EmptyString => EmptyString
  | String c rest =>
    if Ascii.eqb c CR then
      match rest with
      | String c' rest' =>
        if Ascii.eqb c' LF then String LF (universal_newlines rest')
        else String LF (universal_newlines rest)
      | EmptyString => String LF EmptyString
      end
    else String c (universal_newlines rest)
  end.

Fixpoint has_CR (s : string) : bool :=
  match s with
  | EmptyString => false
  | String c rest => Ascii.eqb c CR || has_CR rest
  end.

(** [open(file, encoding="utf-8")] on a file system that maps a path to
    the regular file there or to the error number opening it fails with:
    the file object, or [OSError] with that number ([FileNotFoundError]
    for [ENOENT], [IsADirectoryError] for [EISDIR], [PermissionError] for
    [EACCES], ...). *)
Definition open (fs : string -> node) (file : string)
  : exn + TextIOWrapper :=
  match fs file with
  | Regular bytes => inr (mkTextIO file bytes)
  | Failing errno => inl (OSError errno file)
  end.

(** [f.read()]: the whole content, decoded and with newlines
    translated. *)
Definition read (f : TextIOWrapper) : exn + string :=
  if utf8_valid (buffer f) then inr (universal_newlines (buffer f))
  else inl UnicodeDecodeError.
End builtins.

(** ** The host's filter registry *)

Module tutor.
(** Modelled from the spec: the host orchestrator's extension-point
    registry (the [tutor.hooks] package, which is not part of this
    repository).  A filter holds the registrations made so far, each with
    its numeric priority and the items it appends. *)
Record FilterCallback : Type := mkCallback {
  priority : Z;
  appended : list value
}.

Definition Registry : Type := Filters.t -> list FilterCallback.

(** The registry the host creates at startup, before any plugin loads. *)
Definition fresh : Registry := fun _ => [].

(** Modelled from the spec: registrations are kept ordered by priority,
    lower values first, ties in registration order (a new registration
    goes behind every one whose priority is not larger). *)
Fixpoint insert_callback (callback : FilterCallback)
    (callbacks : list FilterCallback) : list FilterCallback :=
  match callbacks with
  | [] => [callback]
  | c :: rest =>
    if (priority c <=? priority callback)%Z
    then c :: insert_callback callback rest
    else callback :: callbacks
  end.

Definition register (f : Filters.t) (callback : FilterCallback)
    (reg : Registry) : Registry :=
  fun g => if Filters.eqb g f then insert_callback callback (reg g) else reg g.

(** Modelled from the spec: the aggregate of a filter, the items of its
    registrations concatenated in priority order. *)
Definition values (reg : Registry) (f : Filters.t) : list value :=
  flat_map appended (reg f).

(** Modelled from the spec: the patch registry is read per insertion
    point; an item [(name, content)] contributes [content] to the
    insertion point [name]. *)
Definition patch_at (name : string) (item : value) : list string :=
  match item with
  | Tuple [Str n; Str content] => if n =? name then [content] else []
  | _ => []
  end.

Definition iter_patches (reg : Registry) (name : string) : list string :=
  flat_map (patch_at name) (values reg Filters.ENV_PATCHES).
End tutor.
Import tutor.

(** ** Running a program against the host and the file system *)

Section Interpreter.
(** The host's default priority, used when a call gives none. *)
Variable DEFAULT : Z.
(** The file system: what is at a path. *)
Variable fs : string -> node.

Definition priority_or_default (p : option Z) : Z :=
  match p with
  | Some n => n
  | None => DEFAULT
  end.

(** One call: the registry after it, and its result or the exception it
    raises.  The module opens files with the encoding 'utf-8' only, which
    is the decoding [builtins.read] applies. *)
Definition handle (c : call) (reg : Registry)
  : Registry * (exn + response c) :=
  match c return Registry * (exn + response c) with
  | add_item f item p =>
    (register f (mkCallback (priority_or_default p) [item]) reg, inr tt)
  | add_items f items p =>
    (register f (mkCallback (priority_or_default p) items) reg, inr tt)
  | iterate f => (reg, inr (values reg f))
  | open file _ => (reg, builtins.open fs file)
  | read f => (reg, inr (builtins.read f))
  | close _ => (reg, inr tt)
  | raise e => (reg, inl e)
  end.

(** A program runs call by call; an exception ends the run where it is
    raised, and the registrations made until then stay. *)
Fixpoint run {A : Type} (p : Prog A) (reg : Registry)
  : Registry * (exn + A) :=
  match p with
  | Ret a => (reg, inr a)
  | Call c k =>
    match handle c reg with
    | (reg', inr x) => run (k x) reg'
    | (reg', inl e) => (reg', inl e)
    end
  end.

(** The calls a run makes, in order. *)
Fixpoint journal {A : Type} (p : Prog A) (reg : Registry) : list call :=
  match p with
  | Ret _ => []
  | Call c k =>
    c :: match handle c reg with
         | (reg', inr x) => journal (k x) reg'
         | (_, inl _) => []
         end
  end.

(** The registry before the first call and after each call of a run. *)
Fixpoint states {A : Type} (p : Prog A) (reg : Registry) : list Registry :=
  reg :: match p with
         | Ret _ => []
         | Call c k =>
           match handle c reg with
           | (reg', inr x) => states (k x) reg'
           | (reg', inl _) => [reg']
           end
         end.
End Interpreter.

(** ** [tutorlegacyfrontends/plugin.py] *)

Module plugin.
Definition BUILD_PRODUCTION_ASSETS : string := "
# Build & collect production assets. By default, only assets from the default theme
# will be processed. This makes the docker image lighter and faster to build.
RUN npm run postinstall  # Postinstall artifacts are stuck in nodejs-requirements layer. Create them here too.
RUN npm run compile-sass -- --skip-themes
RUN npm run webpack

# Now that the default theme is built, build any custom themes
COPY --chown=app:app ./themes/ /openedx/themes
RUN npm run compile-sass -- --skip-default
".

(** The literal ends two lines with a backslash: inside a Python string
    that joins the line with the next one. *)
Definition BUILD_DEVELOPMENT_ASSETS : string := "
# Recompile static assets: in development mode all static assets are stored in edx-platform,
# and the location of these files is stored in webpack-stats.json. If we don't recompile
# static assets, then production assets will be served instead.
RUN rm -r /openedx/staticfiles &&     mkdir /openedx/staticfiles &&     npm run build-dev
".

Definition MY_INIT_TASKS : list (string * list string) := [].

Section Module_body.
(** [__version__] of [tutorlegacyfrontends.__about__]. *)
Variable __version__ : string.
(** [package_files p] is
    [str(importlib_resources.files("tutorlegacyfrontends") / p)]. *)
Variable package_files : string -> string.

Definition full_path (template_path : list string) : string :=
  package_files (posixpath.join "templates" template_path).

(** The body of the loop over the initialization tasks.  The with
    statement opens the file, runs the read, closes the file whether the
    read returned or raised, and raises the exception of the read again;
    the registration follows the with statement. *)
Definition load_init_task (task : string * list string) : Prog unit :=
  let '(service, template_path) := task in
  init_task_file <- perform (open (full_path template_path) "utf-8") ;;
  outcome <- perform (read init_task_file) ;;
  perform (close init_task_file) ;;
  init_task <- reraise outcome ;;
  perform (add_item Filters.CLI_DO_INIT_TASKS
             (Tuple [Str service; Str init_task]) None).

(** The statements of the module, top to bottom, for a given content
    of the list of initialization tasks. *)
Definition module_body (init_tasks : list (string * list string))
  : Prog unit :=
  perform (add_item Filters.ENV_PATCHES
    (Tuple [Str "openedx-dockerfile-pre-assets";
            Str BUILD_PRODUCTION_ASSETS])
    (Some 100%Z)) ;;
  perform (add_item Filters.ENV_PATCHES
    (Tuple [Str "openedx-dev-dockerfile-post-python-requirements";
            Str BUILD_DEVELOPMENT_ASSETS])
    (Some 1%Z)) ;;
  perform (add_items Filters.CONFIG_DEFAULTS
    [Tuple [Str "LEGACYFRONTENDS_VERSION"; Str __version__]] None) ;;
  perform (add_items Filters.CONFIG_UNIQUE [] None) ;;
  perform (add_items Filters.CONFIG_OVERRIDES [] None) ;;
  for_each init_tasks load_init_task ;;
  perform (add_items Filters.IMAGES_BUILD [] None) ;;
  perform (add_items Filters.IMAGES_PULL [] None) ;;
  perform (add_items Filters.IMAGES_PUSH [] None) ;;
  perform (add_items Filters.ENV_TEMPLATE_ROOTS
    [Str (package_files "templates")] None) ;;
  perform (add_items Filters.ENV_TEMPLATE_TARGETS
    [Tuple [Str "legacyfrontends/build"; Str "plugins"];
     Tuple [Str "legacyfrontends/apps"; Str "plugins"]] None).

(** The module as it stands. *)
Definition load : Prog unit := module_body MY_INIT_TASKS.
End Module_body.
End plugin.
Import plugin.

(** ** Vocabulary of the properties *)

(** The items a call appends to the filter [f]. *)
Definition items_for (f : Filters.t) (c : call) : list value :=
  match c with
  | add_item g item _ => if Filters.eqb f g then [item] else []
  | add_items g items _ => if Filters.eqb f g then items else []
  | _ => []
  end.

(** What a sequence of calls contributes to the filter [f], in call
    order. *)
Definition contributed (calls : list call) (f : Filters.t) : list value :=
  flat_map (items_for f) calls.

Definition appends_to (f : Filters.t) (c : call) : bool :=
  match c with
  | add_item g _ _ | add_items g _ _ => Filters.eqb f g
  | _ => false
  end.

Definition reads_registry (c : call) : bool :=
  match c with
  | iterate _ => true
  | _ => false
  end.

Definition opens_file (c : call) : bool :=
  match c with
  | open _ _ => true
  | _ => false
  end.

(** A program that never reads a filter back, whatever its calls return. *)
Inductive never_reads {A : Type} : Prog A -> Prop :=
| never_reads_Ret (a : A) : never_reads (Ret a)
| never_reads_Call (c : call) (k : response c -> Prog A) :
    reads_registry c = false ->
    (forall x, never_reads (k x)) ->
    never_reads (Call c k).

(** One call leaves a filter as it was or puts one registration into it;
    the registrations already there stay, unchanged and in their order. *)
Definition grows (old new : list FilterCallback) : Prop :=
  new = old \/
  exists c front back, old = front ++ back /\ new = front ++ c :: back.

Definition extends (reg reg' : Registry) : Prop :=
  forall f, grows (reg f) (reg' f).

(** A relation holds between every element of a list and the next one. *)
Fixpoint stepwise {X : Type} (R : X -> X -> Prop) (l : list X) : Prop :=
  match l with
  | a :: rest =>
    match rest with
    | b :: _ => R a b /\ stepwise R rest
    | [] => True
    end
  | [] => True
  end.

Section Init_tasks.
Variable fs : string -> node.
Variable package_files : string -> string.

(** The template of a task can be opened and decodes. *)
Definition readable (task : string * list string) : bool :=
  match fs (full_path package_files (snd task)) with
  | Regular bytes => builtins.utf8_valid bytes
  | Failing _ => false
  end.

(** The bytes of the template of a task. *)
Definition template_bytes (task : string * list string) : string :=
  match fs (full_path package_files (snd task)) with
  | Regular bytes => bytes
  | Failing _ => EmptyString
  end.

(** The item the loop registers for a task whose template is readable. *)
Definition init_task_item (task : string * list string) : value :=
  Tuple [Str (fst task);
         Str (builtins.universal_newlines (template_bytes task))].

(** The exception that loading an unreadable task raises. *)
Definition load_error (task : string * list string) : exn :=
  match fs (full_path package_files (snd task)) with
  | Regular _ => UnicodeDecodeError
  | Failing errno => OSError errno (full_path package_files (snd task))
  end.

(** The tasks in front of the first unreadable one. *)
Fixpoint loaded (tasks : list (string * list string))
  : list (string * list string) :=
  match tasks with
  | [] => []
  | task :: rest => if readable task then task :: loaded rest else []
  end.

(** How the loop over the tasks ends: it completes, or it raises at the
    first unreadable task. *)
Fixpoint loop_outcome (tasks : list (string * list string)) : exn + unit :=
  match tasks with
  | [] => inr tt
  | task :: rest =>
    if readable task then loop_outcome rest else inl (load_error task)
  end.

(** The calls of the loop: open, read, close and register for every loaded
    task, then the open that raises or, if the file opens and does not
    decode, the open, the read, the close and the raise. *)
Fixpoint loop_calls (tasks : list (string * list string)) : list call :=
  match tasks with
  | [] => []
  | task :: rest =>
    let path := full_path package_files (snd task) in
    open path "utf-8" ::
    match fs path with
    | Failing _ => []
    | Regular bytes =>
      read (mkTextIO path bytes) ::
      close (mkTextIO path bytes) ::
      if builtins.utf8_valid bytes
      then add_item Filters.CLI_DO_INIT_TASKS (init_task_item task) None
           :: loop_calls rest
      else [raise UnicodeDecodeError]
    end
  end.
End Init_tasks.

(** The calls of the statements in front of the loop over the tasks, and of
    those behind it. *)
Definition statements_before_loop (__version__ : string) : list call :=
  [add_item Filters.ENV_PATCHES
     (Tuple [Str "openedx-dockerfile-pre-assets";
             Str BUILD_PRODUCTION_ASSETS])
     (Some 100%Z);
   add_item Filters.ENV_PATCHES
     (Tuple [Str "openedx-dev-dockerfile-post-python-requirements";
             Str BUILD_DEVELOPMENT_ASSETS])
     (Some 1%Z);
   add_items Filters.CONFIG_DEFAULTS
     [Tuple [Str "LEGACYFRONTENDS_VERSION"; Str __version__]] None;
   add_items Filters.CONFIG_UNIQUE [] None;
   add_items Filters.CONFIG_OVERRIDES [] None].

Definition statements_after_loop (package_files : string -> string)
  : list call :=
  [add_items Filters.IMAGES_BUILD [] None;
   add_items Filters.IMAGES_PULL [] None;
   add_items Filters.IMAGES_PUSH [] None;
   add_items Filters.ENV_TEMPLATE_ROOTS
     [Str (package_files "templates")] None;
   add_items Filters.ENV_TEMPLATE_TARGETS
     [Tuple [Str "legacyfrontends/build"; Str "plugins"];
      Tuple [Str "legacyfrontends/apps"; Str "plugins"]] None].

(** The registry after the module has run from [reg], filter by filter:
    the registrations of the statements that were reached, each put in by
    ordered insertion. *)
Definition registry_after (DEFAULT : Z) (fs : string -> node)
    (__version__ : string) (package_files : string -> string)
    (init_tasks : list (string * list string)) (reg : Registry) : Registry :=
  let done :=
    match loop_outcome fs package_files init_tasks with
    | inr _ => true
    | inl _ => false
    end in
  let then_ (c : FilterCallback) (cbs : list FilterCallback) :=
    if done then insert_callback c cbs else cbs in
  fun f =>
    match f with
    | Filters.ENV_PATCHES =>
      insert_callback
        (mkCallback 1
           [Tuple [Str "openedx-dev-dockerfile-post-python-requirements";
                   Str BUILD_DEVELOPMENT_ASSETS]])
        (insert_callback
           (mkCallback 100
              [Tuple [Str "openedx-dockerfile-pre-assets";
                      Str BUILD_PRODUCTION_ASSETS]])
           (reg f))
    | Filters.CONFIG_DEFAULTS =>
      insert_callback
        (mkCallback DEFAULT
           [Tuple [Str "LEGACYFRONTENDS_VERSION"; Str __version__]])
        (reg f)
    | Filters.CONFIG_UNIQUE | Filters.CONFIG_OVERRIDES =>
      insert_callback (mkCallback DEFAULT []) (reg f)
    | Filters.CLI_DO_INIT_TASKS =>
      fold_left
        (fun cbs task =>
           insert_callback
             (mkCallback DEFAULT [init_task_item fs package_files task]) cbs)
        (loaded fs package_files init_tasks) (reg f)
    | Filters.IMAGES_BUILD | Filters.IMAGES_PULL | Filters.IMAGES_PUSH =>
      then_ (mkCallback DEFAULT []) (reg f)
    | Filters.ENV_TEMPLATE_ROOTS =>
      then_ (mkCallback DEFAULT [Str (package_files "templates")]) (reg f)
    | Filters.ENV_TEMPLATE_TARGETS =>
      then_ (mkCallback DEFAULT
               [Tuple [Str "legacyfrontends/build"; Str "plugins"];
                Tuple [Str "legacyfrontends/apps"; Str "plugins"]])
            (reg f)
    end.

(** A configuration entry whose key carries the prefix of the plugin. *)
Definition namespaced (item : value) : bool :=
  match item with
  | Tuple [Str key; _] => String.prefix "LEGACYFRONTENDS_" key
  | _ => false
  end.

(** Another plugin: it registers patches, each with the default priority. *)
Definition patch_item (patch : string * string) : value :=
  Tuple [Str (fst patch); Str (snd patch)].

Definition other_plugin (patches : list (string * string)) : Prog unit :=
  for_each patches
    (fun patch => perform (add_item Filters.ENV_PATCHES (patch_item patch) None)).

(** The contents among [patches] that go to the insertion point [name]. *)
Definition contents_at (name : string) (patches : list (string * string))
  : list string :=
  flat_map (fun patch => patch_at name (patch_item patch)) patches.

(** ** Sample environments *)

(** [str(PurePosixPath(s))]: the root ('/', or '//' for exactly two
    leading slashes), then the components of [s] that are neither empty
    nor '.', joined by '/'; '.' when nothing is left. *)
Module pathlib.
Definition keep (component : string) : list string :=
  if (component =? "") || (component =? ".") then [] else [component].

Fixpoint parts (s current : string) : list string :=
  match s with
  | EmptyString => keep current
  | String c rest =>
    if Ascii.eqb c "/" then keep current ++ parts rest EmptyString
    else parts rest (current ++ String c EmptyString)
  end.

Definition root (s : string) : string :=
  if String.prefix "/" s then
    if String.prefix "//" s && negb (String.prefix "///" s) then "//"
    else "/"
  else "".

Definition str (s : string) : string :=
  let body := String.concat "/" (parts s EmptyString) in
  if (root s =? "") && (body =? "") then "." else root s ++ body.
End pathlib.

(** An installed package, where the files of the package are a directory
    and [files / p] is [PosixPath] joining, and two initialization
    tasks. *)
Definition sample_files (p : string) : string :=
  pathlib.str
    (posixpath.join_step
       "/usr/lib/python3/site-packages/tutorlegacyfrontends" p).

Definition lms_init : string * list string :=
  ("lms", ["legacyfrontends"; "tasks"; "lms"; "init.sh"]).

Definition cms_init : string * list string :=
  ("cms", ["legacyfrontends"; "tasks"; "cms"; "init.sh"]).

Definition lms_init_path : string :=
  "/usr/lib/python3/site-packages/tutorlegacyfrontends/templates/legacyfrontends/tasks/lms/init.sh".

(** A one-line script with a Unix line end, and the same line with a DOS
    line end. *)
Definition unix_script : string :=
  "echo hi" ++ String builtins.LF EmptyString.

Definition dos_script : string :=
  "echo hi" ++ String builtins.CR (String builtins.LF EmptyString).

(** A byte string that is not UTF-8. *)
Definition latin1_script : string :=
  String "233"%char EmptyString.

(** File systems with a single file, with one more file elsewhere, and
    with no file at all. *)
Definition only_file (path bytes : string) : string -> node :=
  fun p => if p =? path then Regular bytes else Failing ENOENT.

Definition and_hostname (fs : string -> node) : string -> node :=
  fun p => if p =? "/etc/hostname" then Regular "builder" else fs p.

Definition no_files : string -> node := fun _ => Failing ENOENT.

(** A file system with a directory where a template is expected. *)
Definition directory_at (path : string) : string -> node :=
  fun p => if p =? path then Failing EISDIR else Failing ENOENT.

(** ** Vocabulary of the further properties *)

(** Every byte of the string is below 0x80. *)
Fixpoint is_ascii (s : string) : bool :=
  match s with
  | EmptyString => true
  | String c rest => builtins.byte_in 0x00 0x7F c && is_ascii rest
  end.

(** A path component that [os.path.join] treats as absolute. *)
Definition absolute (b : string) : bool := String.prefix posixpath.sep b.

(** A plain path component: not empty, no separator at either end. *)
Definition plain (b : string) : bool :=
  negb (b =? "") && negb (absolute b) && negb (posixpath.endswith_sep b).

(** The four calls of the loop for one task whose template is readable. *)
Definition task_calls (fs : string -> node)
    (package_files : string -> string) (task : string * list string)
  : list call :=
  [open (full_path package_files (snd task)) "utf-8";
   read (mkTextIO (full_path package_files (snd task))
                  (template_bytes fs package_files task));
   close (mkTextIO (full_path package_files (snd task))
                   (template_bytes fs package_files task));
   add_item Filters.CLI_DO_INIT_TASKS
            (init_task_item fs package_files task) None].

(** The priority argument of a call that registers. *)
Definition priority_argument (c : call) : option Z :=
  match c with
  | add_item _ _ p | add_items _ _ p => p
  | _ => None
  end.

(** A file system that holds, at the template of every task, the text that
    reading the template on [fs] gives. *)
Definition rewritten (fs : string -> node)
    (package_files : string -> string) (tasks : list (string * list string))
    (fs' : string -> node) : Prop :=
  forall task,
    In task tasks ->
    fs' (full_path package_files (snd task))
    = Regular
        (builtins.universal_newlines (template_bytes fs package_files task)).

(** * Properties *)

(** ** Sequencing *)

Section Run_facts.
Variable DEFAULT : Z.
Variable fs : string -> node.

Lemma run_bind {A B : Type} (p : Prog A) (f : A -> Prog B) (reg : Registry) :
  run DEFAULT fs (bind p f) reg =
  match run DEFAULT fs p reg with
  | (reg', inr a) => run DEFAULT fs (f a) reg'
  | (reg', inl e) => (reg', inl e)
  end.
Proof.
  revert reg.
  induction p as [a | c k IH]; intros reg; simpl.
  - reflexivity.
  - destruct (handle DEFAULT fs c reg) as [reg' [e | x]].
    + reflexivity.
    + apply IH.
Qed.

Lemma journal_bind {A B : Type} (p : Prog A) (f : A -> Prog B) (reg : Registry) :
  journal DEFAULT fs (bind p f) reg =
  journal DEFAULT fs p reg ++
  match run DEFAULT fs p reg with
  | (reg', inr a) => journal DEFAULT fs (f a) reg'
  | (_, inl _) => []
  end.
Proof.
  revert reg.
  induction p as [a | c k IH]; intros reg; simpl.
  - reflexivity.
  - destruct (handle DEFAULT fs c reg) as [reg' [e | x]]; simpl.
    + reflexivity.
    + now rewrite IH.
Qed.

(** The result of a call that is not [iterate] does not depend on the
    registry. *)
Lemma handle_result_blind (c : call) (reg1 reg2 : Registry) :
  reads_registry c = false ->
  snd (handle DEFAULT fs c reg1) = snd (handle DEFAULT fs c reg2).
Proof.
  destruct c; simpl; intros H; try reflexivity; discriminate H.
Qed.

Lemma never_reads_journal {A : Type} (p : Prog A) :
  never_reads p ->
  forall reg1 reg2, journal DEFAULT fs p reg1 = journal DEFAULT fs p reg2.
Proof.
  induction 1 as [a | c k Hc Hk IH]; intros reg1 reg2; simpl.
  - reflexivity.
  - f_equal.
    pose proof (handle_result_blind c reg1 reg2 Hc) as Hres.
    destruct (handle DEFAULT fs c reg1) as [r1 [e1 | x1]],
             (handle DEFAULT fs c reg2) as [r2 [e2 | x2]];
      simpl in Hres; try discriminate Hres.
    + reflexivity.
    + injection Hres as ->. apply IH.
Qed.

Lemma never_reads_calls {A : Type} (p : Prog A) :
  never_reads p ->
  forall reg, Forall (fun c => reads_registry c = false)
                     (journal DEFAULT fs p reg).
Proof.
  induction 1 as [a | c k Hc Hk IH]; intros reg; simpl.
  - constructor.
  - constructor; [exact Hc |].
    destruct (handle DEFAULT fs c reg) as [reg' [e | x]].
    + constructor.
    + apply IH.
Qed.

End Run_facts.

Lemma never_reads_bind {A B : Type} (p : Prog A) (f : A -> Prog B) :
  never_reads p -> (forall a, never_reads (f a)) -> never_reads (bind p f).
Proof.
  intros Hp Hf.
  induction Hp as [a | c k Hc Hk IH]; simpl.
  - apply Hf.
  - constructor; assumption.
Qed.

Lemma never_reads_perform (c : call) :
  reads_registry c = false -> never_reads (perform c).
Proof.
  intros Hc. constructor; [exact Hc | intros x; constructor].
Qed.

Lemma never_reads_reraise {A : Type} (outcome : exn + A) :
  never_reads (reraise outcome).
Proof.
  destruct outcome as [e | a]; simpl.
  - constructor; [reflexivity | intros []].
  - constructor.
Qed.

Lemma never_reads_for_each {B : Type} (l : list B) (body : B -> Prog unit) :
  (forall x, never_reads (body x)) -> never_reads (for_each l body).
Proof.
  intros Hbody.
  induction l as [| x rest IH]; simpl.
  - constructor.
  - apply never_reads_bind; [apply Hbody | intros _; exact IH].
Qed.

(** ** Ordered insertion *)

Lemma Filters_eqb_eq (a b : Filters.t) : Filters.eqb a b = true <-> a = b.
Proof.
  split.
  - destruct a, b; simpl; intros H; try reflexivity; discriminate H.
  - intros ->. destruct b; reflexivity.
Qed.

Lemma Filters_eqb_refl (a : Filters.t) : Filters.eqb a a = true.
Proof. now apply Filters_eqb_eq. Qed.

Lemma insert_callback_split (c : FilterCallback) (cbs : list FilterCallback) :
  exists front back,
    cbs = front ++ back /\ insert_callback c cbs = front ++ c :: back.
Proof.
  induction cbs as [| c' rest IH]; simpl.
  - exists [], []. now split.
  - destruct (priority c' <=? priority c)%Z.
    + destruct IH as (front & back & Hrest & Hins).
      exists (c' :: front), back. simpl. now rewrite <- Hrest, Hins.
    + exists [], (c' :: rest). now split.
Qed.

(** A registration goes behind every one that is not above it and before
    the first one that is. *)
Lemma insert_callback_between (c : FilterCallback)
    (front back : list FilterCallback) :
  Forall (fun c' => (priority c' <= priority c)%Z) front ->
  match back with
  | [] => True
  | b :: _ => (priority c < priority b)%Z
  end ->
  insert_callback c (front ++ back) = front ++ c :: back.
Proof.
  intros Hfront Hback.
  induction Hfront as [| c' front' Hc' _ IH]; simpl.
  - destruct back as [| b back']; simpl.
    + reflexivity.
    + destruct (Z.leb_spec (priority b) (priority c)) as [Hle | _].
      * lia.
      * reflexivity.
  - destruct (Z.leb_spec (priority c') (priority c)) as [_ | Hlt].
    + now rewrite IH.
    + lia.
Qed.

Lemma grows_insert (c : FilterCallback) (cbs : list FilterCallback) :
  grows cbs (insert_callback c cbs).
Proof.
  right. destruct (insert_callback_split c cbs) as (front & back & H1 & H2).
  exists c, front, back. now split.
Qed.

Lemma extends_register (f : Filters.t) (c : FilterCallback) (reg : Registry) :
  extends reg (register f c reg).
Proof.
  intros g. unfold register.
  destruct (Filters.eqb g f).
  - apply grows_insert.
  - now left.
Qed.

Lemma extends_refl (reg : Registry) : extends reg reg.
Proof. intros f. now left. Qed.

(** ** The aggregate after a registration *)

Lemma flat_map_insert_callback (c : FilterCallback) (cbs : list FilterCallback) :
  Permutation (flat_map appended (insert_callback c cbs))
              (appended c ++ flat_map appended cbs).
Proof.
  destruct (insert_callback_split c cbs) as (front & back & -> & ->).
  rewrite !flat_map_app. simpl.
  rewrite !app_assoc.
  apply Permutation_app_tail, Permutation_app_comm.
Qed.

Lemma flat_map_insert_split (c : FilterCallback) (cbs : list FilterCallback) :
  exists front back,
    flat_map appended cbs = front ++ back /\
    flat_map appended (insert_callback c cbs) = front ++ appended c ++ back.
Proof.
  destruct (insert_callback_split c cbs) as (front & back & -> & ->).
  exists (flat_map appended front), (flat_map appended back).
  now rewrite !flat_map_app.
Qed.

Lemma flat_map_insert_nil (p : Z) (cbs : list FilterCallback) :
  flat_map appended (insert_callback (mkCallback p []) cbs)
  = flat_map appended cbs.
Proof.
  destruct (insert_callback_split (mkCallback p []) cbs)
    as (front & back & -> & ->).
  now rewrite !flat_map_app.
Qed.

(** ** Every call extends the registry, and contributes its items *)

Section Host_facts.
Variable DEFAULT : Z.
Variable fs : string -> node.

Lemma handle_extends (c : call) (reg : Registry) :
  extends reg (fst (handle DEFAULT fs c reg)).
Proof.
  destruct c; simpl;
    try apply extends_register; apply extends_refl.
Qed.

Lemma states_head {A : Type} (p : Prog A) (reg : Registry) :
  exists rest, states DEFAULT fs p reg = reg :: rest.
Proof. destruct p; simpl; eauto. Qed.

Lemma states_stepwise {A : Type} (p : Prog A) (reg : Registry) :
  stepwise extends (states DEFAULT fs p reg).
Proof.
  revert reg.
  induction p as [a | c k IH]; intros reg.
  - exact I.
  - pose proof (handle_extends c reg) as Hext.
    change (states DEFAULT fs (Call c k) reg)
      with (reg :: match handle DEFAULT fs c reg with
                   | (reg', inr x) => states DEFAULT fs (k x) reg'
                   | (reg', inl _) => [reg']
                   end).
    destruct (handle DEFAULT fs c reg) as [reg' [e | x]]; simpl in Hext.
    + simpl. now split.
    + specialize (IH x reg').
      destruct (states_head (k x) reg') as [rest Hrest].
      rewrite Hrest in *. simpl. now split.
Qed.

Lemma handle_values (c : call) (reg : Registry) (f : Filters.t) :
  Permutation (values (fst (handle DEFAULT fs c reg)) f)
              (items_for f c ++ values reg f).
Proof.
  unfold values.
  destruct c as [g item p | g items p | g | file enc | h | h | e]; simpl;
    try reflexivity; unfold register;
    destruct (Filters.eqb f g); try reflexivity;
    apply (flat_map_insert_callback (mkCallback _ _)).
Qed.

(** The aggregate after a run holds what was there and what the calls of
    the run appended, nothing else. *)
Lemma run_values {A : Type} (p : Prog A) (reg : Registry) (f : Filters.t) :
  Permutation (values (fst (run DEFAULT fs p reg)) f)
              (contributed (journal DEFAULT fs p reg) f ++ values reg f).
Proof.
  revert reg.
  induction p as [a | c k IH]; intros reg; simpl.
  - reflexivity.
  - pose proof (handle_values c reg f) as Hc.
    destruct (handle DEFAULT fs c reg) as [reg' [e | x]]; simpl in Hc |- *.
    + now rewrite app_nil_r.
    + rewrite (IH x reg'), Hc. unfold contributed.
      rewrite app_assoc.
      apply Permutation_app_tail, Permutation_app_comm.
Qed.
End Host_facts.

(** ** The loop over the initialization tasks *)

Section Module_facts.
Variable DEFAULT : Z.
Variable fs : string -> node.
Variable __version__ : string.
Variable package_files : string -> string.

Lemma run_init_loop (tasks : list (string * list string)) (reg : Registry) :
  snd (run DEFAULT fs (for_each tasks (load_init_task package_files)) reg)
  = loop_outcome fs package_files tasks /\
  journal DEFAULT fs (for_each tasks (load_init_task package_files)) reg
  = loop_calls fs package_files tasks /\
  forall f,
    fst (run DEFAULT fs (for_each tasks (load_init_task package_files)) reg) f
    = if Filters.eqb f Filters.CLI_DO_INIT_TASKS
      then fold_left
             (fun cbs task =>
                insert_callback
                  (mkCallback DEFAULT [init_task_item fs package_files task])
                  cbs)
             (loaded fs package_files tasks) (reg f)
      else reg f.
Proof.
  revert reg.
  induction tasks as [| [service template_path] rest IH]; intros reg.
  - simpl. repeat split. intros f. now destruct (Filters.eqb _ _).
  - cbn [for_each load_init_task bind perform run journal handle
         loaded loop_outcome loop_calls snd fst].
    unfold readable, load_error, builtins.open, builtins.read.
    cbn [snd fst].
    destruct (fs (full_path package_files template_path))
      as [bytes | errno] eqn:Hfs.
    + cbn [buffer name].
      destruct (builtins.utf8_valid bytes).
      * cbn [bind run journal handle priority_or_default reraise].
        specialize (IH (register Filters.CLI_DO_INIT_TASKS
                          (mkCallback DEFAULT
                             [Tuple [Str service;
                                     Str (builtins.universal_newlines bytes)]])
                          reg)).
        destruct IH as (Hout & Hcalls & Hreg).
        assert (Hitem : init_task_item fs package_files (service, template_path)
                        = Tuple [Str service;
                                 Str (builtins.universal_newlines bytes)]).
        { unfold init_task_item, template_bytes. cbn [snd fst].
          now rewrite Hfs. }
        split; [exact Hout |].
        split;
          [rewrite Hitem; do 3 f_equal;
           cbn [bind perform journal handle priority_or_default];
           f_equal; exact Hcalls |].
        intros f. etransitivity; [exact (Hreg f) |]. unfold register.
        destruct (Filters.eqb f Filters.CLI_DO_INIT_TASKS) eqn:Hf.
        -- cbn [fold_left]. now rewrite Hitem.
        -- reflexivity.
      * cbn. repeat split. intros f. now destruct (Filters.eqb _ _).
    + cbn. repeat split. intros f. now destruct (Filters.eqb _ _).
Qed.

(** The module, statement by statement: how it ends, the calls it makes,
    and the registry it leaves. *)
Lemma run_module_body (tasks : list (string * list string)) (reg : Registry) :
  snd (run DEFAULT fs (module_body __version__ package_files tasks) reg)
  = loop_outcome fs package_files tasks /\
  forall f,
    fst (run DEFAULT fs (module_body __version__ package_files tasks) reg) f
    = registry_after DEFAULT fs __version__ package_files tasks reg f.
Proof.
  unfold module_body.
  cbn [bind perform run handle priority_or_default].
  rewrite run_bind.
  match goal with
  | |- context [run DEFAULT fs (for_each tasks _) ?r] =>
    destruct (run_init_loop tasks r) as (Hout & _ & Hreg);
    destruct (run DEFAULT fs (for_each tasks (load_init_task package_files)) r)
      as [reg' [e | []]]
  end; cbn [fst snd] in Hout, Hreg.
  - split; [exact Hout |].
    intros f. cbn [fst]. rewrite Hreg. unfold registry_after.
    rewrite <- Hout. unfold register.
    destruct f; reflexivity.
  - cbn [bind perform run handle priority_or_default fst snd].
    split; [exact Hout |].
    intros f. unfold registry_after. rewrite <- Hout. unfold register.
    destruct f; cbn [Filters.eqb]; rewrite ?Hreg; reflexivity.
Qed.
End Module_facts.

(** ** The calls of the module *)

Ltac never_reads_step :=
  match goal with
  | |- never_reads (perform ?c) => exact (never_reads_perform c eq_refl)
  | |- never_reads (reraise _) => apply never_reads_reraise
  | |- never_reads (bind _ _) => apply never_reads_bind; [| intros ?]
  | |- never_reads (for_each _ _) => apply never_reads_for_each; intros ?
  end.

Section Journal_facts.
Variable DEFAULT : Z.
Variable fs : string -> node.
Variable __version__ : string.
Variable package_files : string -> string.

Lemma journal_module_body (tasks : list (string * list string))
    (reg : Registry) :
  journal DEFAULT fs (module_body __version__ package_files tasks) reg
  = statements_before_loop __version__
    ++ loop_calls fs package_files tasks
    ++ match loop_outcome fs package_files tasks with
       | inr _ => statements_after_loop package_files
       | inl _ => []
       end.
Proof.
  unfold module_body, statements_before_loop.
  cbn [bind perform run journal handle priority_or_default app].
  do 5 f_equal.
  rewrite journal_bind.
  match goal with
  | |- context [run DEFAULT fs (for_each tasks _) ?r] =>
    destruct (run_init_loop DEFAULT fs package_files tasks r)
      as (Hout & Hcalls & _);
    rewrite Hcalls; rewrite <- Hout;
    destruct (run DEFAULT fs (for_each tasks (load_init_task package_files)) r)
      as [reg' [e | []]]
  end; reflexivity.
Qed.

Lemma never_reads_load_init_task (task : string * list string) :
  never_reads (load_init_task package_files task).
Proof.
  destruct task as [service template_path]. unfold load_init_task.
  repeat never_reads_step.
Qed.

Lemma never_reads_module_body (tasks : list (string * list string)) :
  never_reads (module_body __version__ package_files tasks).
Proof.
  unfold module_body.
  repeat never_reads_step.
  apply never_reads_load_init_task.
Qed.
End Journal_facts.

(** ** Registrations with the default priority *)

Lemma fold_insert_between {X : Type} (p : Z) (item : X -> list value)
    (l : list X) (front back : list FilterCallback) :
  Forall (fun c => (priority c <= p)%Z) front ->
  match back with
  | [] => True
  | b :: _ => (p < priority b)%Z
  end ->
  fold_left (fun cbs x => insert_callback (mkCallback p (item x)) cbs)
            l (front ++ back)
  = front ++ map (fun x => mkCallback p (item x)) l ++ back.
Proof.
  revert front.
  induction l as [| x rest IH]; intros front Hfront Hback; simpl.
  - reflexivity.
  - rewrite (insert_callback_between (mkCallback p (item x)) front back
               Hfront Hback).
    change (front ++ mkCallback p (item x) :: back)
      with (front ++ [mkCallback p (item x)] ++ back).
    rewrite app_assoc, IH.
    + now rewrite <- app_assoc.
    + apply Forall_app. split; [exact Hfront |].
      constructor; [simpl; lia | constructor].
    + exact Hback.
Qed.

Lemma flat_map_singletons {X : Type} (p : Z) (item : X -> value) (l : list X) :
  flat_map appended (map (fun x => mkCallback p [item x]) l) = map item l.
Proof.
  induction l as [| x rest IH]; simpl; [reflexivity | now rewrite IH].
Qed.

(** ** Reading a template *)

Lemma universal_newlines_no_CR (s : string) :
  builtins.has_CR s = false -> builtins.universal_newlines s = s.
Proof.
  induction s as [| c rest IH]; simpl; intros H.
  - reflexivity.
  - apply orb_false_iff in H. destruct H as [Hc Hrest].
    rewrite Hc. now rewrite IH.
Qed.

Lemma universal_newlines_cons (c : ascii) (rest : string) :
  Ascii.eqb c builtins.CR = false ->
  builtins.universal_newlines (String c rest)
  = String c (builtins.universal_newlines rest).
Proof. intros H. simpl. now rewrite H. Qed.

(** What is read holds no carriage return. *)
Lemma universal_newlines_has_no_CR (s : string) :
  builtins.has_CR (builtins.universal_newlines s) = false.
Proof.
  induction s as [| c rest IH]; [reflexivity |].
  cbn [builtins.universal_newlines].
  destruct (Ascii.eqb c builtins.CR) eqn:Hc.
  - destruct rest as [| c' rest']; [reflexivity |].
    destruct (Ascii.eqb c' builtins.LF) eqn:Hc'.
    + apply Ascii.eqb_eq in Hc'. subst c'.
      rewrite universal_newlines_cons in IH by reflexivity.
      exact IH.
    + cbn [builtins.has_CR]. now rewrite IH.
  - cbn [builtins.has_CR]. now rewrite Hc, IH.
Qed.

Section Loop_facts.
Variable fs : string -> node.
Variable package_files : string -> string.

Lemma loop_outcome_ok (tasks : list (string * list string)) :
  loop_outcome fs package_files tasks = inr tt <->
  forallb (readable fs package_files) tasks = true.
Proof.
  induction tasks as [| task rest IH]; simpl.
  - tauto.
  - destruct (readable fs package_files task); simpl.
    + exact IH.
    + split; discriminate.
Qed.

Lemma loaded_all (tasks : list (string * list string)) :
  forallb (readable fs package_files) tasks = true ->
  loaded fs package_files tasks = tasks.
Proof.
  induction tasks as [| task rest IH]; simpl.
  - reflexivity.
  - destruct (readable fs package_files task); simpl.
    + intros H. now rewrite IH.
    + discriminate.
Qed.

Lemma loaded_stops (before after : list (string * list string))
    (task : string * list string) :
  readable fs package_files task = false ->
  loaded fs package_files (before ++ task :: after)
  = loaded fs package_files before.
Proof.
  intros Htask.
  induction before as [| b rest IH]; simpl.
  - now rewrite Htask.
  - destruct (readable fs package_files b); [now rewrite IH | reflexivity].
Qed.

Lemma loop_outcome_stops (before after : list (string * list string))
    (task : string * list string) :
  readable fs package_files task = false ->
  exists e, loop_outcome fs package_files (before ++ task :: after) = inl e.
Proof.
  intros Htask.
  induction before as [| b rest IH]; simpl.
  - rewrite Htask. eauto.
  - destruct (readable fs package_files b); [exact IH | eauto].
Qed.

Lemma loop_outcome_first (before after : list (string * list string))
    (task : string * list string) :
  forallb (readable fs package_files) before = true ->
  readable fs package_files task = false ->
  loop_outcome fs package_files (before ++ task :: after)
  = inl (load_error fs package_files task).
Proof.
  intros Hbefore Htask.
  induction before as [| b rest IH]; simpl in *.
  - now rewrite Htask.
  - apply andb_true_iff in Hbefore. destruct Hbefore as [Hb Hrest].
    rewrite Hb. now apply IH.
Qed.

Lemma loop_calls_first (before after : list (string * list string))
    (task : string * list string) (errno : N) :
  forallb (readable fs package_files) before = true ->
  fs (full_path package_files (snd task)) = Failing errno ->
  loop_calls fs package_files (before ++ task :: after)
  = loop_calls fs package_files before
    ++ [open (full_path package_files (snd task)) "utf-8"].
Proof.
  intros Hbefore Htask.
  induction before as [| b rest IH]; simpl in *.
  - now rewrite Htask.
  - apply andb_true_iff in Hbefore. destruct Hbefore as [Hb Hrest].
    unfold readable in Hb.
    destruct (fs (full_path package_files (snd b))) as [bytes | errno'];
      [| discriminate Hb].
    rewrite Hb. now rewrite (IH Hrest).
Qed.

(** The loop registers one item for every task it loads, and nothing
    else. *)
Lemma contributed_loop_calls (tasks : list (string * list string))
    (f : Filters.t) :
  contributed (loop_calls fs package_files tasks) f
  = if Filters.eqb f Filters.CLI_DO_INIT_TASKS
    then map (init_task_item fs package_files)
             (loaded fs package_files tasks)
    else [].
Proof.
  unfold contributed.
  induction tasks as [| task rest IH]; simpl.
  - now destruct (Filters.eqb _ _).
  - unfold readable.
    destruct (fs (full_path package_files (snd task))) as [bytes | errno]; simpl.
    + destruct (builtins.utf8_valid bytes); simpl.
      * rewrite IH. now destruct (Filters.eqb _ _).
      * now destruct (Filters.eqb _ _).
    + now destruct (Filters.eqb _ _).
Qed.
End Loop_facts.

(** ** Another plugin's patches *)

Lemma run_other_plugin (DEFAULT : Z) (fs : string -> node)
    (patches : list (string * string)) (reg : Registry) :
  snd (run DEFAULT fs (other_plugin patches) reg) = inr tt /\
  forall f,
    fst (run DEFAULT fs (other_plugin patches) reg) f
    = if Filters.eqb f Filters.ENV_PATCHES
      then fold_left
             (fun cbs patch =>
                insert_callback (mkCallback DEFAULT [patch_item patch]) cbs)
             patches (reg f)
      else reg f.
Proof.
  revert reg. unfold other_plugin.
  induction patches as [| patch rest IH]; intros reg.
  - simpl. split; [reflexivity |]. intros f. now destruct (Filters.eqb _ _).
  - cbn [for_each bind perform run handle priority_or_default].
    destruct (IH (register Filters.ENV_PATCHES
                    (mkCallback DEFAULT [patch_item patch]) reg))
      as [Hout Hreg].
    split; [exact Hout |].
    intros f. etransitivity; [exact (Hreg f) |]. unfold register.
    now destruct (Filters.eqb f Filters.ENV_PATCHES).
Qed.

(** * The claims *)

Section Claims.
Variable DEFAULT : Z.
Variable fs : string -> node.
Variable __version__ : string.
Variable package_files : string -> string.

(** C1.  The module registers exactly two Dockerfile patches: the
    production assets at 'openedx-dockerfile-pre-assets' with priority 100
    and the development assets at
    'openedx-dev-dockerfile-post-python-requirements' with priority 1.
    When the host's default priority lies strictly between 1 and 100, then
    for all patches that other plugins register with the default priority,
    before or after this module is loaded, the production assets are the
    last content of their insertion point and the development assets the
    first content of theirs. *)
Theorem C1_patches_last_and_first (before after : list (string * string)) :
  (1 < DEFAULT < 100)%Z ->
  let reg :=
    fst (run DEFAULT fs
           (other_plugin before ;;
            load __version__ package_files ;;
            other_plugin after)
           fresh) in
  filter (appends_to Filters.ENV_PATCHES)
         (journal DEFAULT fs (load __version__ package_files) fresh)
  = [add_item Filters.ENV_PATCHES
       (Tuple [Str "openedx-dockerfile-pre-assets";
               Str BUILD_PRODUCTION_ASSETS])
       (Some 100%Z);
     add_item Filters.ENV_PATCHES
       (Tuple [Str "openedx-dev-dockerfile-post-python-requirements";
               Str BUILD_DEVELOPMENT_ASSETS])
       (Some 1%Z)] /\
  reg Filters.ENV_PATCHES
  = mkCallback 1
      [Tuple [Str "openedx-dev-dockerfile-post-python-requirements";
              Str BUILD_DEVELOPMENT_ASSETS]]
    :: map (fun patch => mkCallback DEFAULT [patch_item patch])
           (before ++ after)
    ++ [mkCallback 100
          [Tuple [Str "openedx-dockerfile-pre-assets";
                  Str BUILD_PRODUCTION_ASSETS]]] /\
  iter_patches reg "openedx-dockerfile-pre-assets"
  = contents_at "openedx-dockerfile-pre-assets" (before ++ after)
    ++ [BUILD_PRODUCTION_ASSETS] /\
  iter_patches reg "openedx-dev-dockerfile-post-python-requirements"
  = BUILD_DEVELOPMENT_ASSETS
    :: contents_at "openedx-dev-dockerfile-post-python-requirements"
         (before ++ after).
Proof.
  intros Hdefault reg.
  assert (Hreg : reg Filters.ENV_PATCHES
    = mkCallback 1
        [Tuple [Str "openedx-dev-dockerfile-post-python-requirements";
                Str BUILD_DEVELOPMENT_ASSETS]]
      :: map (fun patch => mkCallback DEFAULT [patch_item patch])
             (before ++ after)
      ++ [mkCallback 100
            [Tuple [Str "openedx-dockerfile-pre-assets";
                    Str BUILD_PRODUCTION_ASSETS]]]).
  { subst reg. rewrite run_bind.
    destruct (run_other_plugin DEFAULT fs before fresh) as [Hout1 Hreg1].
    destruct (run DEFAULT fs (other_plugin before) fresh) as [reg1 [e | []]];
      cbn [fst snd] in Hout1, Hreg1; [discriminate Hout1 |].
    rewrite run_bind.
    destruct (run_module_body DEFAULT fs __version__ package_files
                MY_INIT_TASKS reg1) as [Hout2 Hreg2].
    fold (load __version__ package_files) in Hout2, Hreg2.
    destruct (run DEFAULT fs (load __version__ package_files) reg1)
      as [reg2 [e | []]]; cbn [fst snd] in Hout2, Hreg2;
      [discriminate Hout2 |].
    destruct (run_other_plugin DEFAULT fs after reg2) as [_ Hreg3].
    rewrite Hreg3, Hreg2. cbn [Filters.eqb registry_after].
    rewrite Hreg1. cbn [Filters.eqb]. unfold fresh.
    pose proof (fold_insert_between DEFAULT (fun patch => [patch_item patch])
                  before [] [] (Forall_nil _) I) as Hbefore.
    cbn [app] in Hbefore. rewrite app_nil_r in Hbefore. rewrite Hbefore.
    assert (Hmid : forall l : list (string * string),
               Forall (fun c => (priority c <= DEFAULT)%Z)
                      (map (fun patch => mkCallback DEFAULT [patch_item patch]) l)).
    { intros l. apply Forall_forall. intros c Hc. apply in_map_iff in Hc.
      destruct Hc as (patch & <- & _). simpl. lia. }
    pose proof (insert_callback_between
                  (mkCallback 100
                     [Tuple [Str "openedx-dockerfile-pre-assets";
                             Str BUILD_PRODUCTION_ASSETS]])
                  (map (fun patch => mkCallback DEFAULT [patch_item patch]) before)
                  []) as Hprod.
    rewrite app_nil_r in Hprod. rewrite Hprod; [| | exact I].
    2: { eapply Forall_impl; [| apply Hmid]. simpl. intros c Hc. lia. }
    pose proof (insert_callback_between
                  (mkCallback 1
                     [Tuple [Str "openedx-dev-dockerfile-post-python-requirements";
                             Str BUILD_DEVELOPMENT_ASSETS]])
                  []
                  (map (fun patch => mkCallback DEFAULT [patch_item patch]) before
                   ++ [mkCallback 100
                         [Tuple [Str "openedx-dockerfile-pre-assets";
                                 Str BUILD_PRODUCTION_ASSETS]]])) as Hdev.
    cbn [app] in Hdev. rewrite Hdev; [| constructor | destruct before; simpl; lia].
    pose proof (fold_insert_between DEFAULT (fun patch => [patch_item patch])
                  after
                  (mkCallback 1
                     [Tuple [Str "openedx-dev-dockerfile-post-python-requirements";
                             Str BUILD_DEVELOPMENT_ASSETS]]
                   :: map (fun patch => mkCallback DEFAULT [patch_item patch]) before)
                  [mkCallback 100
                     [Tuple [Str "openedx-dockerfile-pre-assets";
                             Str BUILD_PRODUCTION_ASSETS]]]) as Hafter.
    cbn [app] in Hafter. rewrite Hafter.
    - now rewrite map_app, <- app_assoc.
    - constructor; [simpl; lia | apply Hmid].
    - simpl. lia. }
  split; [reflexivity |].
  split; [exact Hreg |].
  unfold iter_patches, values. rewrite Hreg.
  cbn [flat_map appended app].
  rewrite !flat_map_app, (flat_map_singletons DEFAULT patch_item).
  cbn [flat_map appended app].
  assert (Hmap : forall name l,
             flat_map (patch_at name) (map patch_item l) = contents_at name l).
  { intros name l. unfold contents_at.
    now rewrite !flat_map_concat_map, map_map. }
  rewrite !Hmap.
  split; cbn -[contents_at BUILD_PRODUCTION_ASSETS BUILD_DEVELOPMENT_ASSETS];
    rewrite ?app_nil_r; reflexivity.
Qed.

Lemma load_succeeds_iff (tasks : list (string * list string)) (reg : Registry) :
  snd (run DEFAULT fs (module_body __version__ package_files tasks) reg)
  = inr tt
  <-> forallb (readable fs package_files) tasks = true.
Proof.
  destruct (run_module_body DEFAULT fs __version__ package_files tasks reg)
    as [Hout _].
  rewrite Hout. apply loop_outcome_ok.
Qed.

(** What the loop leaves in the filter of the initialization tasks of a
    fresh registry: one item per loaded task, in the order of the list. *)
Lemma init_tasks_from_fresh (tasks : list (string * list string)) :
  values (fst (run DEFAULT fs (module_body __version__ package_files tasks)
                 fresh))
         Filters.CLI_DO_INIT_TASKS
  = map (init_task_item fs package_files) (loaded fs package_files tasks).
Proof.
  destruct (run_module_body DEFAULT fs __version__ package_files tasks fresh)
    as [_ Hreg].
  unfold values. rewrite Hreg. cbn [registry_after]. unfold fresh.
  pose proof (fold_insert_between DEFAULT
                (fun task => [init_task_item fs package_files task])
                (loaded fs package_files tasks) [] [] (Forall_nil _) I) as H.
  cbn [app] in H. rewrite app_nil_r in H. rewrite H.
  apply flat_map_singletons.
Qed.

(** C2 (amended).  When the module loads, the filter of the initialization
    tasks holds one item per declared task, in order; its text is the
    content of the task's template file, which is valid UTF-8, with
    universal newlines applied (CR LF and CR read as LF).  The text equals
    the bytes of the file exactly when the file has no carriage return. *)
Theorem C2_init_task_text (tasks : list (string * list string)) :
  snd (run DEFAULT fs (module_body __version__ package_files tasks) fresh)
  = inr tt ->
  Forall2
    (fun task item =>
       exists bytes,
         fs (full_path package_files (snd task)) = Regular bytes /\
         builtins.utf8_valid bytes = true /\
         item = Tuple [Str (fst task);
                       Str (builtins.universal_newlines bytes)] /\
         (builtins.has_CR bytes = false <->
          item = Tuple [Str (fst task); Str bytes]))
    tasks
    (values (fst (run DEFAULT fs
                    (module_body __version__ package_files tasks) fresh))
            Filters.CLI_DO_INIT_TASKS).
Proof.
  intros Hok. apply load_succeeds_iff in Hok.
  rewrite init_tasks_from_fresh, (loaded_all _ _ _ Hok).
  induction tasks as [| task rest IH]; simpl in *.
  - constructor.
  - apply andb_true_iff in Hok. destruct Hok as [Htask Hrest].
    constructor; [| now apply IH].
    unfold readable in Htask. unfold init_task_item, template_bytes.
    destruct (fs (full_path package_files (snd task))) as [bytes | errno];
      [| discriminate Htask].
    exists bytes.
    split; [reflexivity |]. split; [exact Htask |]. split; [reflexivity |].
    split.
    + intros Hcr. now rewrite (universal_newlines_no_CR _ Hcr).
    + intros Hsame. injection Hsame as Hsame.
      rewrite <- Hsame. apply universal_newlines_has_no_CR.
Qed.

(** C3.  The module contributes exactly one configuration default, the
    pair of 'LEGACYFRONTENDS_VERSION' and the version string of the
    plugin: it is the only item of its calls on the filter, the only
    default in a registry that was fresh, and the only addition to a
    registry that was not. *)
Theorem C3_config_defaults (reg : Registry) :
  contributed (journal DEFAULT fs (load __version__ package_files) reg)
              Filters.CONFIG_DEFAULTS
  = [Tuple [Str "LEGACYFRONTENDS_VERSION"; Str __version__]] /\
  values (fst (run DEFAULT fs (load __version__ package_files) fresh))
         Filters.CONFIG_DEFAULTS
  = [Tuple [Str "LEGACYFRONTENDS_VERSION"; Str __version__]] /\
  Permutation
    (values (fst (run DEFAULT fs (load __version__ package_files) reg))
            Filters.CONFIG_DEFAULTS)
    (Tuple [Str "LEGACYFRONTENDS_VERSION"; Str __version__]
     :: values reg Filters.CONFIG_DEFAULTS).
Proof.
  split; [reflexivity |].
  split; [reflexivity |].
  exact (run_values DEFAULT fs (load __version__ package_files) reg
           Filters.CONFIG_DEFAULTS).
Qed.

(** C4.  The module registers exactly two template targets,
    ('legacyfrontends/build', 'plugins') and ('legacyfrontends/apps',
    'plugins'), in that order, and exactly one template root, the
    'templates' directory of the package: these are the items of its calls
    on the two filters, the content of the two filters in a registry that
    was fresh, and what is put, as one block, into a registry that was
    not. *)
Theorem C4_template_targets_and_root (reg : Registry) :
  let targets :=
    [Tuple [Str "legacyfrontends/build"; Str "plugins"];
     Tuple [Str "legacyfrontends/apps"; Str "plugins"]] in
  let roots := [Str (package_files "templates")] in
  let reg' := fst (run DEFAULT fs (load __version__ package_files) reg) in
  contributed (journal DEFAULT fs (load __version__ package_files) reg)
              Filters.ENV_TEMPLATE_TARGETS = targets /\
  values (fst (run DEFAULT fs (load __version__ package_files) fresh))
         Filters.ENV_TEMPLATE_TARGETS = targets /\
  (exists front back,
     values reg Filters.ENV_TEMPLATE_TARGETS = front ++ back /\
     values reg' Filters.ENV_TEMPLATE_TARGETS = front ++ targets ++ back) /\
  contributed (journal DEFAULT fs (load __version__ package_files) reg)
              Filters.ENV_TEMPLATE_ROOTS = roots /\
  values (fst (run DEFAULT fs (load __version__ package_files) fresh))
         Filters.ENV_TEMPLATE_ROOTS = roots /\
  (exists front back,
     values reg Filters.ENV_TEMPLATE_ROOTS = front ++ back /\
     values reg' Filters.ENV_TEMPLATE_ROOTS = front ++ roots ++ back).
Proof.
  intros targets roots reg'.
  destruct (run_module_body DEFAULT fs __version__ package_files
              MY_INIT_TASKS reg) as [_ Hreg].
  fold (load __version__ package_files) in Hreg. fold reg' in Hreg.
  split; [reflexivity |].
  split; [reflexivity |].
  split.
  { unfold values. rewrite Hreg.
    exact (flat_map_insert_split (mkCallback DEFAULT targets)
             (reg Filters.ENV_TEMPLATE_TARGETS)). }
  split; [reflexivity |].
  split; [reflexivity |].
  unfold values. rewrite Hreg.
  exact (flat_map_insert_split (mkCallback DEFAULT roots)
           (reg Filters.ENV_TEMPLATE_ROOTS)).
Qed.

(** C5.  The lists the module declares empty (unique configuration
    entries, configuration overrides, images to build, to pull and to
    push, initialization tasks) contribute no entry: the calls of the
    module append nothing to these filters, and the aggregate of each is
    after the load what it was before. *)
Theorem C5_empty_lists (reg : Registry) :
  MY_INIT_TASKS = [] /\
  Forall
    (fun f =>
       contributed (journal DEFAULT fs (load __version__ package_files) reg) f
       = [] /\
       values (fst (run DEFAULT fs (load __version__ package_files) reg)) f
       = values reg f /\
       values (fst (run DEFAULT fs (load __version__ package_files) fresh)) f
       = [])
    [Filters.CONFIG_UNIQUE; Filters.CONFIG_OVERRIDES; Filters.IMAGES_BUILD;
     Filters.IMAGES_PULL; Filters.IMAGES_PUSH; Filters.CLI_DO_INIT_TASKS].
Proof.
  split; [reflexivity |].
  destruct (run_module_body DEFAULT fs __version__ package_files
              MY_INIT_TASKS reg) as [_ Hreg].
  fold (load __version__ package_files) in Hreg.
  repeat constructor; unfold values; rewrite Hreg;
    cbn [registry_after loop_outcome loaded MY_INIT_TASKS fold_left];
    try apply flat_map_insert_nil; reflexivity.
Qed.

(** C6.  Every configuration key the module registers, as a default, as a
    unique entry or as an override, starts with 'LEGACYFRONTENDS_'; there
    is such a key. *)
Theorem C6_keys_namespaced (reg : Registry) :
  Forall
    (fun f =>
       Forall (fun item => namespaced item = true)
         (contributed (journal DEFAULT fs (load __version__ package_files) reg)
                      f) /\
       Forall (fun item => namespaced item = true)
         (values (fst (run DEFAULT fs (load __version__ package_files) fresh))
                 f))
    [Filters.CONFIG_DEFAULTS; Filters.CONFIG_UNIQUE;
     Filters.CONFIG_OVERRIDES] /\
  In (Tuple [Str "LEGACYFRONTENDS_VERSION"; Str __version__])
     (contributed (journal DEFAULT fs (load __version__ package_files) reg)
                  Filters.CONFIG_DEFAULTS).
Proof.
  split.
  - repeat constructor.
  - now left.
Qed.

(** C7 (amended).  An initialization task whose template file does not
    exist makes the load fail: its iteration raises the file-not-found
    error at the open and registers nothing; the module never completes,
    registers nothing for that task or a later one, and runs none of the
    statements behind the loop.  When every task in front of it is readable
    (its template opens and decodes), the load ends with this
    file-not-found error and the failed open is its last call.  There is
    no other way to the template: with the list of tasks empty, as the
    module declares it, no file is opened. *)
Theorem C7_missing_template (before after : list (string * list string))
    (service : string) (template_path : list string) (reg : Registry) :
  fs (full_path package_files template_path) = Failing ENOENT ->
  let path := full_path package_files template_path in
  let tasks := before ++ (service, template_path) :: after in
  let body := module_body __version__ package_files tasks in
  run DEFAULT fs (load_init_task package_files (service, template_path)) reg
  = (reg, inl (FileNotFoundError path)) /\
  journal DEFAULT fs (load_init_task package_files (service, template_path))
          reg
  = [open path "utf-8"] /\
  (exists e, snd (run DEFAULT fs body reg) = inl e) /\
  contributed (journal DEFAULT fs body reg) Filters.CLI_DO_INIT_TASKS
  = map (init_task_item fs package_files) (loaded fs package_files before) /\
  Forall (fun f => fst (run DEFAULT fs body reg) f = reg f)
    [Filters.IMAGES_BUILD; Filters.IMAGES_PULL; Filters.IMAGES_PUSH;
     Filters.ENV_TEMPLATE_ROOTS; Filters.ENV_TEMPLATE_TARGETS] /\
  (forallb (readable fs package_files) before = true ->
   snd (run DEFAULT fs body reg) = inl (FileNotFoundError path) /\
   (exists calls, journal DEFAULT fs body reg = calls ++ [open path "utf-8"]) /\
   contributed (journal DEFAULT fs body reg) Filters.CLI_DO_INIT_TASKS
   = map (init_task_item fs package_files) before) /\
  existsb opens_file
    (journal DEFAULT fs (load __version__ package_files) reg) = false.
Proof.
  intros Hmissing path tasks body. subst path.
  assert (Hunreadable :
            readable fs package_files (service, template_path) = false).
  { unfold readable. cbn [snd]. now rewrite Hmissing. }
  destruct (run_module_body DEFAULT fs __version__ package_files tasks reg)
    as [Hout Hreg].
  pose proof (journal_module_body DEFAULT fs __version__ package_files
                tasks reg) as Hcalls.
  fold body in Hout, Hreg, Hcalls.
  destruct (loop_outcome_stops fs package_files before after
              (service, template_path) Hunreadable) as [e He].
  fold tasks in He.
  assert (Hmine : contributed (journal DEFAULT fs body reg)
                              Filters.CLI_DO_INIT_TASKS
                  = map (init_task_item fs package_files)
                        (loaded fs package_files before)).
  { rewrite Hcalls, He. unfold contributed.
    rewrite !flat_map_app. cbn [flat_map app].
    fold (contributed (loop_calls fs package_files tasks)
                      Filters.CLI_DO_INIT_TASKS).
    rewrite contributed_loop_calls. cbn [Filters.eqb].
    unfold tasks. rewrite (loaded_stops _ _ _ _ _ Hunreadable).
    unfold statements_before_loop. cbn. now rewrite app_nil_r. }
  split.
  { unfold load_init_task. cbn [bind perform run handle].
    unfold builtins.open. now rewrite Hmissing. }
  split.
  { unfold load_init_task. cbn [bind perform journal handle].
    unfold builtins.open. now rewrite Hmissing. }
  split; [exists e; now rewrite Hout |].
  split; [exact Hmine |].
  split.
  { repeat constructor; rewrite Hreg; unfold registry_after;
      fold tasks; now rewrite He. }
  split.
  - intros Hbefore.
    split.
    + rewrite Hout. unfold tasks.
      rewrite (loop_outcome_first _ _ _ _ _ Hbefore Hunreadable).
      unfold load_error. cbn [snd]. now rewrite Hmissing.
    + split.
      * exists (statements_before_loop __version__
                ++ loop_calls fs package_files before).
        rewrite Hcalls, He. unfold tasks.
        rewrite (loop_calls_first fs package_files before after
                   (service, template_path) ENOENT Hbefore Hmissing).
        cbn [snd]. now rewrite app_nil_r, app_assoc.
      * rewrite Hmine. now rewrite (loaded_all _ _ _ Hbefore).
  - reflexivity.
Qed.

Lemma readable_agree (fs1 fs2 : string -> node)
    (tasks : list (string * list string)) :
  (forall task, In task tasks ->
     fs1 (full_path package_files (snd task))
     = fs2 (full_path package_files (snd task))) ->
  loop_outcome fs1 package_files tasks = loop_outcome fs2 package_files tasks /\
  loop_calls fs1 package_files tasks = loop_calls fs2 package_files tasks /\
  map (init_task_item fs1 package_files) (loaded fs1 package_files tasks)
  = map (init_task_item fs2 package_files) (loaded fs2 package_files tasks).
Proof.
  induction tasks as [| task rest IH]; intros Hagree.
  - repeat split.
  - assert (Htask := Hagree task (or_introl eq_refl)).
    destruct IH as (Hout & Hcalls & Hitems).
    { intros t Ht. apply Hagree. now right. }
    assert (Hitem : init_task_item fs1 package_files task
                    = init_task_item fs2 package_files task).
    { unfold init_task_item, template_bytes. now rewrite Htask. }
    cbn [loop_outcome loop_calls loaded].
    rewrite Hitem, Hout, Hcalls.
    unfold readable, load_error. rewrite Htask.
    destruct (fs2 (full_path package_files (snd task))) as [bytes | errno];
      [destruct (builtins.utf8_valid bytes) |]; repeat split.
    cbn [map]. now rewrite Hitem, Hitems.
Qed.

(** C8.  Two loads of the module, each into a fresh registry, end the same
    way, make the same calls and leave the same registrations in the same
    order in every filter, whatever else differs between the two runs, as
    long as the template files of the declared tasks (none, as the module
    stands) read the same. *)
Theorem C8_load_deterministic (tasks : list (string * list string))
    (fs1 fs2 : string -> node) :
  (forall task, In task tasks ->
     fs1 (full_path package_files (snd task))
     = fs2 (full_path package_files (snd task))) ->
  let body := module_body __version__ package_files tasks in
  snd (run DEFAULT fs1 body fresh) = snd (run DEFAULT fs2 body fresh) /\
  journal DEFAULT fs1 body fresh = journal DEFAULT fs2 body fresh /\
  forall f, fst (run DEFAULT fs1 body fresh) f
            = fst (run DEFAULT fs2 body fresh) f.
Proof.
  intros Hagree body.
  destruct (readable_agree fs1 fs2 tasks Hagree)
    as (Hout & Hcalls & Hitems).
  destruct (run_module_body DEFAULT fs1 __version__ package_files tasks fresh)
    as [Hout1 Hreg1].
  destruct (run_module_body DEFAULT fs2 __version__ package_files tasks fresh)
    as [Hout2 Hreg2].
  fold body in Hout1, Hreg1, Hout2, Hreg2.
  split; [now rewrite Hout1, Hout2 |].
  split.
  - unfold body. rewrite !journal_module_body. now rewrite Hout, Hcalls.
  - intros f. rewrite Hreg1, Hreg2. unfold registry_after. rewrite Hout.
    destruct f; try reflexivity.
    unfold fresh.
    pose proof (fold_insert_between DEFAULT
                  (fun task => [init_task_item fs1 package_files task])
                  (loaded fs1 package_files tasks) [] [] (Forall_nil _) I)
      as H1.
    pose proof (fold_insert_between DEFAULT
                  (fun task => [init_task_item fs2 package_files task])
                  (loaded fs2 package_files tasks) [] [] (Forall_nil _) I)
      as H2.
    cbn [app] in H1, H2. rewrite app_nil_r in H1, H2. rewrite H1, H2.
    rewrite <- (map_map (init_task_item fs1 package_files)
                  (fun item => mkCallback DEFAULT [item])),
            <- (map_map (init_task_item fs2 package_files)
                  (fun item => mkCallback DEFAULT [item])).
    now rewrite Hitems.
Qed.

(** C9.  At every step of its load the module only appends: it makes no
    call that reads a filter, so the calls it makes are the same whatever
    the registry holds; and after each call every filter still holds the
    registrations it held before the call, unchanged and in their order,
    with at most one put in. *)
Theorem C9_only_appends (tasks : list (string * list string)) :
  never_reads (module_body __version__ package_files tasks) /\
  (forall reg,
     Forall (fun c => reads_registry c = false)
       (journal DEFAULT fs (module_body __version__ package_files tasks) reg)) /\
  (forall reg1 reg2,
     journal DEFAULT fs (module_body __version__ package_files tasks) reg1
     = journal DEFAULT fs (module_body __version__ package_files tasks) reg2) /\
  (forall reg,
     stepwise extends
       (states DEFAULT fs (module_body __version__ package_files tasks) reg)).
Proof.
  pose proof (never_reads_module_body __version__ package_files tasks) as Hnr.
  split; [exact Hnr |].
  split; [intros reg; now apply never_reads_calls |].
  split; [intros reg1 reg2; now apply never_reads_journal |].
  intros reg. apply states_stepwise.
Qed.

(** C10.  The two patches of the module go to two different insertion
    points; each of the two receives exactly one patch from the module,
    no insertion point receives more than one, so the priorities 100 and
    1 never meet in one insertion point. *)
Theorem C10_distinct_insertion_points (reg : Registry) :
  "openedx-dockerfile-pre-assets"
  <> "openedx-dev-dockerfile-post-python-requirements" /\
  let mine :=
    contributed (journal DEFAULT fs (load __version__ package_files) reg)
                Filters.ENV_PATCHES in
  flat_map (patch_at "openedx-dockerfile-pre-assets") mine
  = [BUILD_PRODUCTION_ASSETS] /\
  flat_map (patch_at "openedx-dev-dockerfile-post-python-requirements") mine
  = [BUILD_DEVELOPMENT_ASSETS] /\
  (forall name, length (flat_map (patch_at name) mine) <= 1) /\
  iter_patches (fst (run DEFAULT fs (load __version__ package_files) fresh))
               "openedx-dockerfile-pre-assets"
  = [BUILD_PRODUCTION_ASSETS] /\
  iter_patches (fst (run DEFAULT fs (load __version__ package_files) fresh))
               "openedx-dev-dockerfile-post-python-requirements"
  = [BUILD_DEVELOPMENT_ASSETS].
Proof.
  split; [discriminate |].
  intros mine.
  split; [reflexivity |].
  split; [reflexivity |].
  split; [| split; reflexivity].
  intros name. subst mine.
  change (contributed
            (journal DEFAULT fs (load __version__ package_files) reg)
            Filters.ENV_PATCHES)
    with [Tuple [Str "openedx-dockerfile-pre-assets";
                 Str BUILD_PRODUCTION_ASSETS];
          Tuple [Str "openedx-dev-dockerfile-post-python-requirements";
                 Str BUILD_DEVELOPMENT_ASSETS]].
  cbn [flat_map patch_at app].
  destruct (String.eqb_spec "openedx-dockerfile-pre-assets" name) as [<- | _].
  - cbn. lia.
  - destruct (String.eqb
                "openedx-dev-dockerfile-post-python-requirements" name);
      cbn; lia.
Qed.
End Claims.

(** * The claims at sample environments *)

(** With the default priority 50 and two patches of other plugins at the
    production insertion point, one registered before the module and one
    after it, the production assets come last. *)
Lemma C1_default_50 :
  (1 < 50 < 100)%Z /\
  iter_patches
    (fst (run 50 no_files
            (other_plugin [("openedx-dockerfile-pre-assets", "RUN echo first")] ;;
             load "18.0.0" sample_files ;;
             other_plugin [("openedx-dockerfile-pre-assets", "RUN echo second")])
            fresh))
    "openedx-dockerfile-pre-assets"
  = ["RUN echo first"; "RUN echo second"; BUILD_PRODUCTION_ASSETS].
Proof.
  assert (H : (1 < 50 < 100)%Z) by lia.
  split; [exact H |].
  pose proof (C1_patches_last_and_first 50 no_files "18.0.0" sample_files
                [("openedx-dockerfile-pre-assets", "RUN echo first")]
                [("openedx-dockerfile-pre-assets", "RUN echo second")] H) as T.
  cbv zeta in T. destruct T as (_ & _ & T & _). exact T.
Defined.

(** The hypothesis of C1 is needed at both ends: with a default priority of
    1 a patch registered earlier stays in front of the development assets,
    and with a default priority of 100 a patch registered later goes behind
    the production assets. *)
Example default_priority_1 :
  iter_patches
    (fst (run 1 no_files
            (other_plugin
               [("openedx-dev-dockerfile-post-python-requirements", "RUN true")] ;;
             load "18.0.0" sample_files)
            fresh))
    "openedx-dev-dockerfile-post-python-requirements"
  = ["RUN true"; BUILD_DEVELOPMENT_ASSETS].
Proof. reflexivity. Qed.

Example default_priority_100 :
  iter_patches
    (fst (run 100 no_files
            (load "18.0.0" sample_files ;;
             other_plugin [("openedx-dockerfile-pre-assets", "RUN true")])
            fresh))
    "openedx-dockerfile-pre-assets"
  = [BUILD_PRODUCTION_ASSETS; "RUN true"].
Proof. reflexivity. Qed.

(** C2 as the spec states it fails on a template with DOS line ends: the
    load succeeds and the registered text is not the content of the
    file. *)
Lemma C2_dos_line_ends :
  only_file lms_init_path dos_script (full_path sample_files (snd lms_init))
  = Regular dos_script /\
  snd (run 50 (only_file lms_init_path dos_script)
         (module_body "18.0.0" sample_files [lms_init]) fresh)
  = inr tt /\
  values (fst (run 50 (only_file lms_init_path dos_script)
                 (module_body "18.0.0" sample_files [lms_init]) fresh))
         Filters.CLI_DO_INIT_TASKS
  = [Tuple [Str "lms"; Str unix_script]] /\
  unix_script <> dos_script.
Proof.
  repeat split; try reflexivity. discriminate.
Qed.

Lemma C2_unix_script :
  snd (run 50 (only_file lms_init_path unix_script)
         (module_body "18.0.0" sample_files [lms_init]) fresh)
  = inr tt /\
  Forall2
    (fun task item =>
       exists bytes,
         only_file lms_init_path unix_script
           (full_path sample_files (snd task)) = Regular bytes /\
         builtins.utf8_valid bytes = true /\
         item = Tuple [Str (fst task);
                       Str (builtins.universal_newlines bytes)] /\
         (builtins.has_CR bytes = false <->
          item = Tuple [Str (fst task); Str bytes]))
    [lms_init]
    (values (fst (run 50 (only_file lms_init_path unix_script)
                    (module_body "18.0.0" sample_files [lms_init]) fresh))
            Filters.CLI_DO_INIT_TASKS).
Proof.
  split; [reflexivity |].
  apply (C2_init_task_text 50 (only_file lms_init_path unix_script)
           "18.0.0" sample_files [lms_init]).
  reflexivity.
Defined.

(** The template of the first task is there, the template of the second
    is not: the load ends with the file-not-found error of the second. *)
Lemma C7_cms_template_missing :
  only_file lms_init_path unix_script (full_path sample_files (snd cms_init))
  = Failing ENOENT /\
  snd (run 50 (only_file lms_init_path unix_script)
         (module_body "18.0.0" sample_files [lms_init; cms_init]) fresh)
  = inl (FileNotFoundError
           "/usr/lib/python3/site-packages/tutorlegacyfrontends/templates/legacyfrontends/tasks/cms/init.sh") /\
  contributed
    (journal 50 (only_file lms_init_path unix_script)
       (module_body "18.0.0" sample_files [lms_init; cms_init]) fresh)
    Filters.CLI_DO_INIT_TASKS
  = [Tuple [Str "lms"; Str unix_script]].
Proof.
  assert (H : only_file lms_init_path unix_script
                (full_path sample_files (snd cms_init)) = Failing ENOENT)
    by reflexivity.
  split; [exact H |].
  pose proof (C7_missing_template 50 (only_file lms_init_path unix_script)
                "18.0.0" sample_files [lms_init] [] "cms" (snd cms_init)
                fresh H) as T.
  cbv zeta in T. destruct T as (_ & _ & _ & _ & _ & T & _).
  destruct (T eq_refl) as (Hout & _ & Hmine).
  split; [exact Hout | exact Hmine].
Defined.

(** C7 as the spec states it fails when a template in front does not
    decode: the template of the second task does not exist, and the load
    ends with the decoding error of the first, which is no file-not-found
    error. *)
Lemma C7_undecodable_template_first :
  only_file lms_init_path latin1_script
    (full_path sample_files (snd cms_init))
  = Failing ENOENT /\
  snd (run 50 (only_file lms_init_path latin1_script)
         (module_body "18.0.0" sample_files [lms_init; cms_init]) fresh)
  = inl UnicodeDecodeError /\
  (forall filename, UnicodeDecodeError <> FileNotFoundError filename).
Proof.
  split; [reflexivity |]. split; [reflexivity |].
  intros filename. discriminate.
Qed.

(** Two runs on file systems that differ away from the template. *)
Lemma C8_two_file_systems :
  (forall task, In task [lms_init] ->
     only_file lms_init_path unix_script (full_path sample_files (snd task))
     = and_hostname (only_file lms_init_path unix_script)
         (full_path sample_files (snd task))) /\
  and_hostname (only_file lms_init_path unix_script) "/etc/hostname"
  <> only_file lms_init_path unix_script "/etc/hostname" /\
  forall f,
    fst (run 50 (only_file lms_init_path unix_script)
           (module_body "18.0.0" sample_files [lms_init]) fresh) f
    = fst (run 50 (and_hostname (only_file lms_init_path unix_script))
             (module_body "18.0.0" sample_files [lms_init]) fresh) f.
Proof.
  assert (H : forall task, In task [lms_init] ->
     only_file lms_init_path unix_script (full_path sample_files (snd task))
     = and_hostname (only_file lms_init_path unix_script)
         (full_path sample_files (snd task))).
  { intros task [<- | []]. reflexivity. }
  split; [exact H |].
  split; [discriminate |].
  pose proof (C8_load_deterministic 50 "18.0.0" sample_files [lms_init]
                (only_file lms_init_path unix_script)
                (and_hostname (only_file lms_init_path unix_script)) H) as T.
  cbv zeta in T. destruct T as (_ & _ & T). exact T.
Defined.

(** The module as it stands: two loads into fresh registries agree, on
    any two file systems. *)
Corollary load_twice (DEFAULT : Z) (__version__ : string)
    (package_files : string -> string) (fs1 fs2 : string -> node) :
  snd (run DEFAULT fs1 (load __version__ package_files) fresh) = inr tt /\
  snd (run DEFAULT fs2 (load __version__ package_files) fresh) = inr tt /\
  journal DEFAULT fs1 (load __version__ package_files) fresh
  = journal DEFAULT fs2 (load __version__ package_files) fresh /\
  forall f, fst (run DEFAULT fs1 (load __version__ package_files) fresh) f
            = fst (run DEFAULT fs2 (load __version__ package_files) fresh) f.
Proof. repeat split. Qed.

(** * Further properties of the module *)

(** ** Strings and bytes *)

Lemma string_app_assoc (a b c : string) :
  ((a ++ b) ++ c = a ++ (b ++ c))%string.
Proof.
  induction a as [| x a IH]; simpl; [reflexivity | now rewrite IH].
Qed.

Lemma byte_in_not_CR (lo hi : N) (c : ascii) :
  (14 <= lo)%N -> builtins.byte_in lo hi c = true ->
  Ascii.eqb c builtins.CR = false.
Proof.
  intros Hlo Hin. apply Ascii.eqb_neq. intros ->.
  unfold builtins.byte_in in Hin. apply andb_true_iff in Hin.
  destruct Hin as [Hin _]. apply N.leb_le in Hin.
  change (N_of_ascii builtins.CR) with 13%N in Hin. lia.
Qed.

Lemma not_ascii_not_CR (c : ascii) :
  builtins.byte_in 0x00 0x7F c = false -> Ascii.eqb c builtins.CR = false.
Proof.
  intros Hin. apply Ascii.eqb_neq. intros ->. discriminate Hin.
Qed.

Lemma second_of_3_not_CR (b0 b1 : ascii) :
  builtins.second_of_3 b0 b1 = true -> Ascii.eqb b1 builtins.CR = false.
Proof.
  unfold builtins.second_of_3, builtins.continuation.
  destruct (builtins.byte_in 224 224 b0);
    [| destruct (builtins.byte_in 237 237 b0)];
    apply byte_in_not_CR; lia.
Qed.

Lemma second_of_4_not_CR (b0 b1 : ascii) :
  builtins.second_of_4 b0 b1 = true -> Ascii.eqb b1 builtins.CR = false.
Proof.
  unfold builtins.second_of_4, builtins.continuation.
  destruct (builtins.byte_in 240 240 b0);
    [| destruct (builtins.byte_in 244 244 b0)];
    apply byte_in_not_CR; lia.
Qed.

Lemma continuation_not_CR (b : ascii) :
  builtins.continuation b = true -> Ascii.eqb b builtins.CR = false.
Proof. apply byte_in_not_CR. lia. Qed.

(** What is read from a well-formed file is well-formed. *)
Lemma utf8_valid_universal_newlines (s : string) :
  builtins.utf8_valid s = true ->
  builtins.utf8_valid (builtins.universal_newlines s) = true.
Proof.
  remember (String.length s) as n eqn:Hn.
  assert (Hle : String.length s <= n) by lia. clear Hn.
  revert s Hle.
  induction n as [| n IH]; intros s Hle Hvalid.
  - destruct s; [reflexivity | simpl in Hle; lia].
  - destruct s as [| b0 r0]; [reflexivity |].
    simpl in Hle. cbn [builtins.utf8_valid] in Hvalid.
    destruct (builtins.byte_in 0 127 b0) eqn:H0.
    + cbn [builtins.universal_newlines].
      destruct (Ascii.eqb b0 builtins.CR) eqn:Hcr.
      * destruct r0 as [| c' r']; [reflexivity |].
        destruct (Ascii.eqb c' builtins.LF) eqn:Hlf.
        -- apply Ascii.eqb_eq in Hlf. subst c'.
           change (builtins.utf8_valid (builtins.universal_newlines r') = true).
           apply IH; [simpl in Hle; lia | exact Hvalid].
        -- change (builtins.utf8_valid
                     (builtins.universal_newlines (String c' r')) = true).
           apply IH; [lia | exact Hvalid].
      * cbn [builtins.utf8_valid]. rewrite H0. apply IH; [lia | exact Hvalid].
    + rewrite (universal_newlines_cons b0 r0 (not_ascii_not_CR b0 H0)).
      destruct r0 as [| b1 r1]; [discriminate Hvalid |].
      simpl in Hle.
      destruct (builtins.byte_in 194 223 b0) eqn:H2.
      * apply andb_true_iff in Hvalid. destruct Hvalid as [Hb1 Hr1].
        rewrite (universal_newlines_cons b1 r1 (continuation_not_CR b1 Hb1)).
        cbn [builtins.utf8_valid]. rewrite H0, H2, Hb1.
        apply IH; [lia | exact Hr1].
      * destruct r1 as [| b2 r2]; [discriminate Hvalid |].
        simpl in Hle.
        destruct (builtins.byte_in 224 239 b0) eqn:H3.
        -- apply andb_true_iff in Hvalid. destruct Hvalid as [Hb Hr2].
           apply andb_true_iff in Hb. destruct Hb as [Hb1 Hb2].
           rewrite (universal_newlines_cons b1 _ (second_of_3_not_CR b0 b1 Hb1)).
           rewrite (universal_newlines_cons b2 _ (continuation_not_CR b2 Hb2)).
           cbn [builtins.utf8_valid]. rewrite H0, H2, H3, Hb1, Hb2.
           apply IH; [lia | exact Hr2].
        -- destruct r2 as [| b3 r3]; [discriminate Hvalid |].
           simpl in Hle.
           destruct (builtins.byte_in 240 244 b0) eqn:H4;
             [| discriminate Hvalid].
           apply andb_true_iff in Hvalid. destruct Hvalid as [Hb Hr3].
           apply andb_true_iff in Hb. destruct Hb as [Hb Hb3].
           apply andb_true_iff in Hb. destruct Hb as [Hb1 Hb2].
           rewrite (universal_newlines_cons b1 _ (second_of_4_not_CR b0 b1 Hb1)).
           rewrite (universal_newlines_cons b2 _ (continuation_not_CR b2 Hb2)).
           rewrite (universal_newlines_cons b3 _ (continuation_not_CR b3 Hb3)).
           cbn [builtins.utf8_valid]. rewrite H0, H2, H3, H4, Hb1, Hb2, Hb3.
           apply IH; [lia | exact Hr3].
Qed.

Lemma is_ascii_utf8_valid (s : string) :
  is_ascii s = true -> builtins.utf8_valid s = true.
Proof.
  induction s as [| c rest IH]; [reflexivity |].
  cbn [is_ascii builtins.utf8_valid]. intros H.
  apply andb_true_iff in H. destruct H as [Hc Hrest].
  rewrite Hc. now apply IH.
Qed.

(** ** The path of a template *)

Lemma endswith_sep_app (x b : string) :
  b <> EmptyString ->
  posixpath.endswith_sep (x ++ b) = posixpath.endswith_sep b.
Proof.
  intros Hb.
  induction x as [| c x IH]; [reflexivity |].
  change (String c x ++ b)%string with (String c (x ++ b)%string).
  cbn [posixpath.endswith_sep].
  destruct (x ++ b)%string as [| c' r] eqn:Hxb.
  - destruct x; [simpl in Hxb; contradiction | discriminate Hxb].
  - exact IH.
Qed.

Lemma app_not_empty (x b : string) :
  b <> EmptyString -> (x ++ b)%string <> EmptyString.
Proof.
  intros Hb H. destruct x; [simpl in H; contradiction | discriminate H].
Qed.

Lemma plain_spec (b : string) :
  plain b = true ->
  b <> EmptyString /\ String.prefix posixpath.sep b = false /\
  posixpath.endswith_sep b = false.
Proof.
  unfold plain, absolute. intros H.
  apply andb_true_iff in H. destruct H as [H He].
  apply andb_true_iff in H. destruct H as [Hn Ha].
  apply negb_true_iff in Hn, Ha, He.
  repeat split; try assumption.
  intros ->. discriminate Hn.
Qed.

Lemma join_step_plain (path b : string) :
  path <> EmptyString -> posixpath.endswith_sep path = false ->
  plain b = true ->
  posixpath.join_step path b = (path ++ "/" ++ b)%string /\
  (path ++ "/" ++ b)%string <> EmptyString /\
  posixpath.endswith_sep (path ++ "/" ++ b) = false.
Proof.
  intros Hpath Hend Hb.
  destruct (plain_spec b Hb) as (Hne & Habs & Hbend).
  assert (Hsb : ("/" ++ b)%string <> EmptyString) by discriminate.
  split.
  - unfold posixpath.join_step. rewrite Habs, Hend.
    destruct (String.eqb_spec path "") as [-> | _]; [contradiction |].
    reflexivity.
  - split; [now apply app_not_empty |].
    rewrite (endswith_sep_app path _ Hsb).
    change ("/" ++ b)%string with (String "/" b).
    cbn [posixpath.endswith_sep].
    destruct b; [contradiction | exact Hbend].
Qed.

Lemma concat_sep_cons (a b : string) (rest : list string) :
  String.concat "/" ((a ++ "/" ++ b)%string :: rest)
  = (a ++ "/" ++ String.concat "/" (b :: rest))%string.
Proof.
  destruct rest as [| c rest]; [reflexivity |].
  cbn [String.concat]. now rewrite !string_app_assoc.
Qed.

Lemma join_plain (a : string) (p : list string) :
  a <> EmptyString -> posixpath.endswith_sep a = false ->
  Forall (fun b => plain b = true) p ->
  posixpath.join a p = String.concat "/" (a :: p).
Proof.
  intros Ha Hend Hp. revert a Ha Hend.
  induction Hp as [| b rest Hb _ IH]; intros a Ha Hend.
  - reflexivity.
  - unfold posixpath.join. cbn [fold_left].
    destruct (join_step_plain a b Ha Hend Hb) as (-> & Hne & Hend').
    fold (posixpath.join (a ++ "/" ++ b) rest).
    rewrite (IH _ Hne Hend'). apply concat_sep_cons.
Qed.

Lemma join_app (a : string) (p q : list string) :
  posixpath.join a (p ++ q) = posixpath.join (posixpath.join a p) q.
Proof. unfold posixpath.join. apply fold_left_app. Qed.

Lemma prefix_app (a x y : string) :
  String.prefix a x = true -> String.prefix a (x ++ y) = true.
Proof.
  revert x.
  induction a as [| c a IH]; intros x H.
  - now destruct (x ++ y)%string.
  - destruct x as [| d x]; [discriminate H |].
    cbn [String.prefix append] in *.
    destruct (ascii_dec c d); [now apply IH | discriminate H].
Qed.

Lemma join_keeps_prefix (a path : string) (p : list string) :
  String.prefix a path = true ->
  Forall (fun b => absolute b = false) p ->
  String.prefix a (posixpath.join path p) = true.
Proof.
  intros Hpath Hp. revert path Hpath.
  induction Hp as [| b rest Hb _ IH]; intros path Hpath.
  - exact Hpath.
  - unfold posixpath.join. cbn [fold_left].
    fold (posixpath.join (posixpath.join_step path b) rest).
    apply IH. unfold posixpath.join_step.
    unfold absolute in Hb. rewrite Hb.
    destruct ((path =? "") || posixpath.endswith_sep path);
      now apply prefix_app.
Qed.

(** ** The loop, task by task *)

Section Loop_details.
Variable fs : string -> node.
Variable package_files : string -> string.

Lemma readable_spec (task : string * list string) :
  readable fs package_files task = true <->
  exists bytes,
    fs (full_path package_files (snd task)) = Regular bytes /\
    builtins.utf8_valid bytes = true.
Proof.
  unfold readable.
  destruct (fs (full_path package_files (snd task))) as [bytes | errno].
  - split; [intros H; now exists bytes | intros (b & Hb & Hv); congruence].
  - split; [discriminate | intros (b & Hb & _); discriminate Hb].
Qed.

Lemma loaded_readable (tasks : list (string * list string)) :
  Forall (fun task => readable fs package_files task = true)
         (loaded fs package_files tasks).
Proof.
  induction tasks as [| task rest IH]; simpl; [constructor |].
  destruct (readable fs package_files task) eqn:H; now constructor.
Qed.

Lemma loaded_incl (tasks : list (string * list string)) :
  incl (loaded fs package_files tasks) tasks.
Proof.
  induction tasks as [| task rest IH]; simpl; [apply incl_refl |].
  destruct (readable fs package_files task).
  - intros t [<- | Ht]; [now left | right; now apply IH].
  - intros t [].
Qed.

Lemma loop_calls_complete (tasks : list (string * list string)) :
  forallb (readable fs package_files) tasks = true ->
  loop_calls fs package_files tasks
  = flat_map (task_calls fs package_files) tasks.
Proof.
  induction tasks as [| task rest IH]; [reflexivity |].
  cbn [forallb loop_calls flat_map]. intros H.
  apply andb_true_iff in H. destruct H as [Htask Hrest].
  unfold task_calls, template_bytes. unfold readable in Htask.
  destruct (fs (full_path package_files (snd task))) as [bytes | errno];
    [| discriminate Htask].
  rewrite Htask, (IH Hrest). reflexivity.
Qed.

Lemma loop_calls_undecodable (before after : list (string * list string))
    (task : string * list string) (bytes : string) :
  forallb (readable fs package_files) before = true ->
  fs (full_path package_files (snd task)) = Regular bytes ->
  builtins.utf8_valid bytes = false ->
  loop_calls fs package_files (before ++ task :: after)
  = loop_calls fs package_files before
    ++ [open (full_path package_files (snd task)) "utf-8";
        read (mkTextIO (full_path package_files (snd task)) bytes);
        close (mkTextIO (full_path package_files (snd task)) bytes);
        raise UnicodeDecodeError].
Proof.
  intros Hbefore Htask Hbytes.
  induction before as [| b rest IH]; simpl in *.
  - now rewrite Htask, Hbytes.
  - apply andb_true_iff in Hbefore. destruct Hbefore as [Hb Hrest].
    unfold readable in Hb.
    destruct (fs (full_path package_files (snd b))) as [bs | errno];
      [| discriminate Hb].
    rewrite Hb. now rewrite (IH Hrest).
Qed.

(** The loop asks the file system for the templates of declared tasks and
    for nothing else. *)
Lemma loop_calls_declared (tasks : list (string * list string)) :
  Forall
    (fun c =>
       match c with
       | open file encoding =>
         encoding = "utf-8" /\
         exists task, In task tasks /\
                      file = full_path package_files (snd task)
       | read f =>
         fs (name f) = Regular (buffer f) /\
         exists task, In task tasks /\
                      name f = full_path package_files (snd task)
       | close f => fs (name f) = Regular (buffer f)
       | raise e => e = UnicodeDecodeError
       | add_item f _ p => f = Filters.CLI_DO_INIT_TASKS /\ p = None
       | _ => False
       end)
    (loop_calls fs package_files tasks) /\
  length (filter opens_file (loop_calls fs package_files tasks))
  <= length tasks.
Proof.
  induction tasks as [| task rest [IH IHn]]; [split; [constructor | simpl; lia] |].
  assert (Hweak :
    Forall
      (fun c =>
         match c with
         | open file encoding =>
           encoding = "utf-8" /\
           exists t, In t (task :: rest) /\
                     file = full_path package_files (snd t)
         | read f =>
           fs (name f) = Regular (buffer f) /\
           exists t, In t (task :: rest) /\
                     name f = full_path package_files (snd t)
         | close f => fs (name f) = Regular (buffer f)
         | raise e => e = UnicodeDecodeError
         | add_item f _ p => f = Filters.CLI_DO_INIT_TASKS /\ p = None
         | _ => False
         end)
      (loop_calls fs package_files rest)).
  { eapply Forall_impl; [| exact IH].
    intros [g item p | g items p | g | file enc | h | h | e]; try tauto.
    - intros (He & t & Ht & Hf). split; [exact He |].
      exists t. split; [now right | exact Hf].
    - intros (Hb & t & Ht & Hf). split; [exact Hb |].
      exists t. split; [now right | exact Hf]. }
  cbn [loop_calls].
  destruct (fs (full_path package_files (snd task))) as [bytes | errno] eqn:Hfs.
  - split.
    + constructor; [split; [reflexivity | exists task; split; [now left | reflexivity]] |].
      constructor;
        [cbn [name buffer]; split;
         [exact Hfs | exists task; split; [now left | reflexivity]] |].
      constructor; [exact Hfs |].
      destruct (builtins.utf8_valid bytes);
        [| constructor; [reflexivity | constructor]].
      constructor; [now split | exact Hweak].
    + destruct (builtins.utf8_valid bytes); cbn in *; lia.
  - split.
    + constructor; [| constructor].
      split; [reflexivity | exists task; split; [now left | reflexivity]].
    + cbn. lia.
Qed.
End Loop_details.

(** ** Further properties *)

Section Further_properties.
Variable DEFAULT : Z.
Variable fs : string -> node.
Variable __version__ : string.
Variable package_files : string -> string.

Lemma init_tasks_contributed (tasks : list (string * list string))
    (reg : Registry) :
  contributed
    (journal DEFAULT fs (module_body __version__ package_files tasks) reg)
    Filters.CLI_DO_INIT_TASKS
  = map (init_task_item fs package_files) (loaded fs package_files tasks).
Proof.
  rewrite journal_module_body. unfold contributed.
  rewrite !flat_map_app.
  fold (contributed (loop_calls fs package_files tasks)
                    Filters.CLI_DO_INIT_TASKS).
  rewrite contributed_loop_calls. cbn [Filters.eqb].
  destruct (loop_outcome fs package_files tasks); cbn;
    now rewrite app_nil_r.
Qed.

(** X1.  The load completes exactly when the template of every declared
    task is a file that opens for reading and is well-formed UTF-8,
    whatever the registry holds; a template that is missing, is a
    directory or may not be read makes it fail. *)
Theorem load_completes_iff_templates_decode
    (tasks : list (string * list string)) (reg : Registry) :
  snd (run DEFAULT fs (module_body __version__ package_files tasks) reg)
  = inr tt
  <->
  Forall
    (fun task =>
       exists bytes,
         fs (full_path package_files (snd task)) = Regular bytes /\
         builtins.utf8_valid bytes = true)
    tasks.
Proof.
  destruct (run_module_body DEFAULT fs __version__ package_files tasks reg)
    as [Hout _].
  rewrite Hout, loop_outcome_ok, forallb_forall, Forall_forall.
  split; intros H task Ht; apply readable_spec; now apply H.
Qed.

(** X2.  A template that opens for reading and is not well-formed UTF-8
    ends the load, once loading reaches it, with the decoding error: the
    file is opened, read and closed, then the error of the read is raised
    again; these are the last calls, nothing is registered for the task,
    and no statement behind the loop runs. *)
Theorem decode_error_ends_load (before after : list (string * list string))
    (service : string) (template_path : list string) (bytes : string)
    (reg : Registry) :
  fs (full_path package_files template_path) = Regular bytes ->
  builtins.utf8_valid bytes = false ->
  forallb (readable fs package_files) before = true ->
  let path := full_path package_files template_path in
  let body :=
    module_body __version__ package_files
      (before ++ (service, template_path) :: after) in
  snd (run DEFAULT fs body reg) = inl UnicodeDecodeError /\
  (exists calls,
     journal DEFAULT fs body reg
     = calls ++ [open path "utf-8"; read (mkTextIO path bytes);
                 close (mkTextIO path bytes); raise UnicodeDecodeError]) /\
  contributed (journal DEFAULT fs body reg) Filters.CLI_DO_INIT_TASKS
  = map (init_task_item fs package_files) before /\
  Forall (fun f => fst (run DEFAULT fs body reg) f = reg f)
    [Filters.IMAGES_BUILD; Filters.IMAGES_PULL; Filters.IMAGES_PUSH;
     Filters.ENV_TEMPLATE_ROOTS; Filters.ENV_TEMPLATE_TARGETS].
Proof.
  intros Hfile Hbytes Hbefore path body. subst path.
  assert (Hunreadable :
            readable fs package_files (service, template_path) = false).
  { unfold readable. cbn [snd]. now rewrite Hfile. }
  assert (Hout : loop_outcome fs package_files
                   (before ++ (service, template_path) :: after)
                 = inl UnicodeDecodeError).
  { rewrite (loop_outcome_first _ _ _ _ _ Hbefore Hunreadable).
    unfold load_error. cbn [snd]. now rewrite Hfile. }
  destruct (run_module_body DEFAULT fs __version__ package_files
              (before ++ (service, template_path) :: after) reg)
    as [Hrun Hreg].
  fold body in Hrun, Hreg.
  split; [now rewrite Hrun |].
  split.
  { exists (statements_before_loop __version__
            ++ loop_calls fs package_files before).
    unfold body. rewrite journal_module_body, Hout.
    rewrite (loop_calls_undecodable fs package_files before after
               (service, template_path) bytes Hbefore Hfile Hbytes).
    cbn [snd]. now rewrite app_nil_r, app_assoc. }
  split.
  { unfold body. rewrite init_tasks_contributed.
    rewrite (loaded_stops _ _ _ _ _ Hunreadable).
    now rewrite (loaded_all _ _ _ Hbefore). }
  repeat constructor; rewrite Hreg; unfold registry_after; now rewrite Hout.
Qed.

(** X3.  A load that fails is not undone.  Whatever the tasks, the two
    patches and the three configuration registrations are in the registry
    as after a complete load, and the filter of the initialization tasks
    holds what it held and the items of the tasks in front of the first
    unreadable one; when the load fails, the five filters registered behind
    the loop are as they were. *)
Theorem partial_load_is_kept (tasks : list (string * list string))
    (reg : Registry) :
  let body := module_body __version__ package_files tasks in
  Forall
    (fun f => fst (run DEFAULT fs body reg) f
              = fst (run DEFAULT fs (load __version__ package_files) reg) f)
    [Filters.ENV_PATCHES; Filters.CONFIG_DEFAULTS; Filters.CONFIG_UNIQUE;
     Filters.CONFIG_OVERRIDES] /\
  Permutation
    (values (fst (run DEFAULT fs body reg)) Filters.CLI_DO_INIT_TASKS)
    (map (init_task_item fs package_files) (loaded fs package_files tasks)
     ++ values reg Filters.CLI_DO_INIT_TASKS) /\
  ((exists e, snd (run DEFAULT fs body reg) = inl e) ->
   Forall (fun f => fst (run DEFAULT fs body reg) f = reg f)
     [Filters.IMAGES_BUILD; Filters.IMAGES_PULL; Filters.IMAGES_PUSH;
      Filters.ENV_TEMPLATE_ROOTS; Filters.ENV_TEMPLATE_TARGETS]).
Proof.
  intros body.
  destruct (run_module_body DEFAULT fs __version__ package_files tasks reg)
    as [Hout Hreg].
  destruct (run_module_body DEFAULT fs __version__ package_files
              MY_INIT_TASKS reg) as [_ Hreg0].
  fold body in Hout, Hreg. fold (load __version__ package_files) in Hreg0.
  split; [repeat constructor; now rewrite Hreg, Hreg0 |].
  split.
  - rewrite <- init_tasks_contributed with (reg := reg).
    apply run_values.
  - intros [e He]. rewrite Hout in He.
    repeat constructor; rewrite Hreg; unfold registry_after; now rewrite He.
Qed.

(** X4.  The module touches no file but the templates of its declared
    tasks: every file it opens is the template of a declared task, opened
    with the encoding 'utf-8'; every read is of such a file; and it opens
    at most one file per task. *)
Theorem opens_only_declared_templates (tasks : list (string * list string))
    (reg : Registry) :
  let calls :=
    journal DEFAULT fs (module_body __version__ package_files tasks) reg in
  Forall
    (fun c =>
       match c with
       | open file encoding =>
         encoding = "utf-8" /\
         exists task, In task tasks /\
                      file = full_path package_files (snd task)
       | read f =>
         fs (name f) = Regular (buffer f) /\
         exists task, In task tasks /\
                      name f = full_path package_files (snd task)
       | _ => True
       end)
    calls /\
  length (filter opens_file calls) <= length tasks.
Proof.
  intros calls. subst calls. rewrite journal_module_body.
  destruct (loop_calls_declared fs package_files tasks) as [Hloop Hn].
  split.
  - apply Forall_app. split; [repeat constructor |].
    apply Forall_app. split.
    + eapply Forall_impl; [| exact Hloop].
      intros [g item p | g items p | g | file enc | h | h | e]; tauto.
    + destruct (loop_outcome fs package_files tasks); repeat constructor.
  - rewrite !filter_app, !length_app.
    replace (length (filter opens_file (statements_before_loop __version__)))
      with 0 by reflexivity.
    replace (length
               (filter opens_file
                  match loop_outcome fs package_files tasks with
                  | inl _ => []
                  | inr _ => statements_after_loop package_files
                  end))
      with 0 by (now destruct (loop_outcome fs package_files tasks)).
    lia.
Qed.

(** X5.  A complete load makes, between the five registrations in front of
    the loop and the five behind it, exactly four calls per task, in the
    order of the list: open the template, read it, close it, register the
    task; a template is read and closed before its task is registered and
    before the next one is opened. *)
Theorem calls_of_complete_load (tasks : list (string * list string))
    (reg : Registry) :
  forallb (readable fs package_files) tasks = true ->
  journal DEFAULT fs (module_body __version__ package_files tasks) reg
  = statements_before_loop __version__
    ++ flat_map (task_calls fs package_files) tasks
    ++ statements_after_loop package_files.
Proof.
  intros Hok. rewrite journal_module_body.
  rewrite (loop_calls_complete fs package_files tasks Hok).
  apply loop_outcome_ok in Hok. now rewrite Hok.
Qed.

(** X6.  Every script the module registers, in a load that completes or
    not, is a pair of a service and a text that is well-formed UTF-8 and
    holds no carriage return. *)
Theorem registered_scripts_normalised (tasks : list (string * list string))
    (reg : Registry) :
  Forall
    (fun item =>
       exists service text,
         item = Tuple [Str service; Str text] /\
         builtins.has_CR text = false /\
         builtins.utf8_valid text = true)
    (contributed
       (journal DEFAULT fs (module_body __version__ package_files tasks) reg)
       Filters.CLI_DO_INIT_TASKS).
Proof.
  rewrite init_tasks_contributed.
  apply Forall_forall. intros item Hitem.
  apply in_map_iff in Hitem. destruct Hitem as (task & <- & Htask).
  pose proof (loaded_readable fs package_files tasks) as Hread.
  rewrite Forall_forall in Hread. specialize (Hread task Htask).
  unfold readable in Hread. unfold init_task_item, template_bytes.
  destruct (fs (full_path package_files (snd task))) as [bytes | errno];
    [| discriminate Hread].
  exists (fst task), (builtins.universal_newlines bytes).
  split; [reflexivity |].
  split; [apply universal_newlines_has_no_CR
         | now apply utf8_valid_universal_newlines].
Qed.

(** X7.  Round trip.  When the templates are rewritten with the texts
    that a complete load registered, a load from the rewritten files
    completes, registers the same items, and each registered text is the
    content of its file, byte for byte. *)
Theorem registered_text_round_trip (tasks : list (string * list string))
    (fs' : string -> node) :
  forallb (readable fs package_files) tasks = true ->
  rewritten fs package_files tasks fs' ->
  let body := module_body __version__ package_files tasks in
  snd (run DEFAULT fs' body fresh) = inr tt /\
  values (fst (run DEFAULT fs' body fresh)) Filters.CLI_DO_INIT_TASKS
  = values (fst (run DEFAULT fs body fresh)) Filters.CLI_DO_INIT_TASKS /\
  values (fst (run DEFAULT fs' body fresh)) Filters.CLI_DO_INIT_TASKS
  = map (fun task =>
           Tuple [Str (fst task); Str (template_bytes fs' package_files task)])
        tasks.
Proof.
  intros Hok Hrew body.
  assert (Hok' : forallb (readable fs' package_files) tasks = true).
  { apply forallb_forall. intros task Ht.
    rewrite forallb_forall in Hok. specialize (Hok task Ht).
    unfold readable in *. rewrite (Hrew task Ht). unfold template_bytes.
    destruct (fs (full_path package_files (snd task))) as [bytes | errno];
      [| discriminate Hok].
    now apply utf8_valid_universal_newlines. }
  assert (Hitems : forall task, In task tasks ->
            init_task_item fs' package_files task
            = init_task_item fs package_files task /\
            init_task_item fs' package_files task
            = Tuple [Str (fst task);
                     Str (template_bytes fs' package_files task)]).
  { intros task Ht. unfold init_task_item.
    assert (Hb : template_bytes fs' package_files task
                 = builtins.universal_newlines
                     (template_bytes fs package_files task)).
    { unfold template_bytes at 1. now rewrite (Hrew task Ht). }
    rewrite Hb.
    rewrite (universal_newlines_no_CR _ (universal_newlines_has_no_CR _)).
    now split. }
  destruct (run_module_body DEFAULT fs' __version__ package_files tasks fresh)
    as [Hout' _].
  fold body in Hout'.
  split; [rewrite Hout'; now apply loop_outcome_ok |].
  unfold body.
  rewrite !init_tasks_from_fresh.
  rewrite (loaded_all _ _ _ Hok), (loaded_all _ _ _ Hok').
  split; apply map_ext_in; intros task Ht; now apply Hitems.
Qed.

(** X8.  Templates that open for reading and are plain ASCII without a
    carriage return always load and are registered as they are, byte for
    byte, in the order of the list. *)
Theorem ascii_templates_load_verbatim (tasks : list (string * list string)) :
  Forall
    (fun task =>
       exists bytes,
         fs (full_path package_files (snd task)) = Regular bytes /\
         is_ascii bytes = true /\
         builtins.has_CR bytes = false)
    tasks ->
  let body := module_body __version__ package_files tasks in
  snd (run DEFAULT fs body fresh) = inr tt /\
  values (fst (run DEFAULT fs body fresh)) Filters.CLI_DO_INIT_TASKS
  = map (fun task =>
           Tuple [Str (fst task); Str (template_bytes fs package_files task)])
        tasks.
Proof.
  intros Hascii body. rewrite Forall_forall in Hascii.
  assert (Hok : forallb (readable fs package_files) tasks = true).
  { apply forallb_forall. intros task Ht.
    destruct (Hascii task Ht) as (bytes & Hfile & Hb & _).
    unfold readable. rewrite Hfile. now apply is_ascii_utf8_valid. }
  destruct (run_module_body DEFAULT fs __version__ package_files tasks fresh)
    as [Hout _].
  fold body in Hout.
  split; [rewrite Hout; now apply loop_outcome_ok |].
  unfold body. rewrite init_tasks_from_fresh, (loaded_all _ _ _ Hok).
  apply map_ext_in. intros task Ht.
  destruct (Hascii task Ht) as (bytes & Hfile & _ & Hcr).
  unfold init_task_item, template_bytes. rewrite Hfile.
  now rewrite (universal_newlines_no_CR _ Hcr).
Qed.

(** X9.  For plain components (not empty, no '/' at either end) the
    template is looked up at 'templates' and the components joined by
    '/'. *)
Theorem full_path_of_plain_components (template_path : list string) :
  Forall (fun b => plain b = true) template_path ->
  full_path package_files template_path
  = package_files (String.concat "/" ("templates" :: template_path)).
Proof.
  intros Hplain. unfold full_path. f_equal.
  apply join_plain; [discriminate | reflexivity | exact Hplain].
Qed.

(** X10.  A component that starts with '/' discards 'templates' and every
    component in front of it: the path is joined from that component
    on. *)
Theorem absolute_component_replaces_path (front back : list string)
    (b : string) :
  absolute b = true ->
  full_path package_files (front ++ b :: back)
  = package_files (posixpath.join b back).
Proof.
  intros Hb. unfold full_path. f_equal.
  rewrite join_app.
  change (posixpath.join (posixpath.join "templates" front) (b :: back))
    with (posixpath.join
            (posixpath.join_step (posixpath.join "templates" front) b) back).
  unfold posixpath.join_step. unfold absolute in Hb. now rewrite Hb.
Qed.

(** X11.  When no component starts with '/', the template is looked up
    at 'templates' itself (no component) or below 'templates/'. *)
Theorem relative_components_stay_below_templates
    (template_path : list string) :
  Forall (fun b => absolute b = false) template_path ->
  exists relative,
    full_path package_files template_path = package_files relative /\
    (relative = "templates" \/ String.prefix "templates/" relative = true).
Proof.
  intros Hrel. exists (posixpath.join "templates" template_path).
  split; [reflexivity |].
  destruct Hrel as [| b rest Hb Hrest]; [now left |].
  right. unfold posixpath.join. cbn [fold_left].
  fold (posixpath.join (posixpath.join_step "templates" b) rest).
  apply join_keeps_prefix; [| exact Hrest].
  unfold posixpath.join_step. unfold absolute in Hb. cbv beta in Hb.
  rewrite Hb. cbn [String.eqb orb posixpath.endswith_sep].
  change (String.prefix "templates/" ("templates/" ++ b) = true).
  apply prefix_app. reflexivity.
Qed.


(** X13.  Only the two patches are given a priority; every other
    registration of the module, also those of the loop, is made with the
    default priority. *)
Theorem only_the_patches_set_a_priority
    (tasks : list (string * list string)) (reg : Registry) :
  Forall
    (fun c =>
       priority_argument c = None \/
       appends_to Filters.ENV_PATCHES c = true /\
       (priority_argument c = Some 100%Z \/ priority_argument c = Some 1%Z))
    (journal DEFAULT fs (module_body __version__ package_files tasks) reg).
Proof.
  rewrite journal_module_body.
  apply Forall_app. split.
  - repeat constructor; cbn; tauto.
  - apply Forall_app. split.
    + destruct (loop_calls_declared fs package_files tasks) as [Hloop _].
      eapply Forall_impl; [| exact Hloop].
      intros [g item p | g items p | g | file enc | h | h | e]; cbn; try tauto.
    + destruct (loop_outcome fs package_files tasks);
        repeat constructor; cbn; tauto.
Qed.
End Further_properties.

(** ** The further properties at sample environments *)

Lemma decode_error_latin1 :
  only_file lms_init_path latin1_script (full_path sample_files (snd lms_init))
  = Regular latin1_script /\
  builtins.utf8_valid latin1_script = false /\
  snd (run 50 (only_file lms_init_path latin1_script)
         (module_body "18.0.0" sample_files [lms_init; cms_init]) fresh)
  = inl UnicodeDecodeError.
Proof.
  assert (H1 : only_file lms_init_path latin1_script
                 (full_path sample_files (snd lms_init))
               = Regular latin1_script) by reflexivity.
  assert (H2 : builtins.utf8_valid latin1_script = false) by reflexivity.
  split; [exact H1 |]. split; [exact H2 |].
  pose proof (decode_error_ends_load 50
                (only_file lms_init_path latin1_script) "18.0.0" sample_files
                [] [cms_init] "lms" (snd lms_init) latin1_script fresh
                H1 H2 eq_refl) as T.
  cbv zeta in T. destruct T as (T & _). exact T.
Defined.

Lemma calls_of_lms_load :
  forallb (readable (only_file lms_init_path unix_script) sample_files)
          [lms_init] = true /\
  journal 50 (only_file lms_init_path unix_script)
          (module_body "18.0.0" sample_files [lms_init]) fresh
  = statements_before_loop "18.0.0"
    ++ [open lms_init_path "utf-8";
        read (mkTextIO lms_init_path unix_script);
        close (mkTextIO lms_init_path unix_script);
        add_item Filters.CLI_DO_INIT_TASKS
                 (Tuple [Str "lms"; Str unix_script]) None]
    ++ statements_after_loop sample_files.
Proof.
  split; [reflexivity |].
  exact (calls_of_complete_load 50 (only_file lms_init_path unix_script)
           "18.0.0" sample_files [lms_init] fresh eq_refl).
Defined.

Lemma dos_template_rewritten :
  forallb (readable (only_file lms_init_path dos_script) sample_files)
          [lms_init] = true /\
  rewritten (only_file lms_init_path dos_script) sample_files [lms_init]
            (only_file lms_init_path unix_script) /\
  values (fst (run 50 (only_file lms_init_path unix_script)
                 (module_body "18.0.0" sample_files [lms_init]) fresh))
         Filters.CLI_DO_INIT_TASKS
  = [Tuple [Str "lms"; Str unix_script]].
Proof.
  assert (H : rewritten (only_file lms_init_path dos_script) sample_files
                [lms_init] (only_file lms_init_path unix_script)).
  { intros task [<- | []]. reflexivity. }
  split; [reflexivity |]. split; [exact H |].
  pose proof (registered_text_round_trip 50
                (only_file lms_init_path dos_script) "18.0.0" sample_files
                [lms_init] (only_file lms_init_path unix_script)
                eq_refl H) as T.
  cbv zeta in T. destruct T as (_ & _ & T). exact T.
Defined.

Lemma ascii_lms_template :
  Forall
    (fun task =>
       exists bytes,
         only_file lms_init_path unix_script
           (full_path sample_files (snd task)) = Regular bytes /\
         is_ascii bytes = true /\
         builtins.has_CR bytes = false)
    [lms_init] /\
  snd (run 50 (only_file lms_init_path unix_script)
         (module_body "18.0.0" sample_files [lms_init]) fresh)
  = inr tt.
Proof.
  assert (H : Forall
    (fun task =>
       exists bytes,
         only_file lms_init_path unix_script
           (full_path sample_files (snd task)) = Regular bytes /\
         is_ascii bytes = true /\
         builtins.has_CR bytes = false)
    [lms_init]).
  { constructor; [| constructor]. exists unix_script. now repeat split. }
  split; [exact H |].
  pose proof (ascii_templates_load_verbatim 50
                (only_file lms_init_path unix_script) "18.0.0" sample_files
                [lms_init] H) as T.
  cbv zeta in T. destruct T as (T & _). exact T.
Defined.

Lemma lms_init_full_path :
  Forall (fun b => plain b = true) (snd lms_init) /\
  full_path sample_files (snd lms_init) = lms_init_path.
Proof.
  assert (H : Forall (fun b => plain b = true) (snd lms_init))
    by (repeat constructor).
  split; [exact H |].
  exact (full_path_of_plain_components sample_files (snd lms_init) H).
Defined.

(** With an absolute component the installed package is left: the path
    looked up is the component itself. *)
Lemma absolute_component_escapes :
  absolute "/etc/passwd" = true /\
  full_path sample_files ["legacyfrontends"; "/etc/passwd"]
  = "/etc/passwd".
Proof.
  split; [reflexivity |].
  exact (absolute_component_replaces_path sample_files
           ["legacyfrontends"] [] "/etc/passwd" eq_refl).
Defined.

Lemma parent_component_stays_relative :
  Forall (fun b => absolute b = false) [".."; "secrets"] /\
  exists relative,
    full_path sample_files [".."; "secrets"] = sample_files relative /\
    (relative = "templates" \/ String.prefix "templates/" relative = true).
Proof.
  assert (H : Forall (fun b => absolute b = false) [".."; "secrets"])
    by (repeat constructor).
  split; [exact H |].
  exact (relative_components_stay_below_templates sample_files
           [".."; "secrets"] H).
Defined.


(** ** A template that cannot be opened *)

Section Unopenable_templates.
Variable DEFAULT : Z.
Variable fs : string -> node.
Variable __version__ : string.
Variable package_files : string -> string.

(** X14.  A template that cannot be opened, for whatever reason (it is
    missing, it is a directory, it may not be read), ends the load, once
    loading reaches it, with the operating-system error of the open: the
    failed open is the last call, no file is read or closed for the task,
    nothing is registered for it, and no statement behind the loop
    runs. *)
Theorem unopenable_template_ends_load
    (before after : list (string * list string))
    (service : string) (template_path : list string) (errno : N)
    (reg : Registry) :
  fs (full_path package_files template_path) = Failing errno ->
  forallb (readable fs package_files) before = true ->
  let path := full_path package_files template_path in
  let body :=
    module_body __version__ package_files
      (before ++ (service, template_path) :: after) in
  snd (run DEFAULT fs body reg) = inl (OSError errno path) /\
  (exists calls, journal DEFAULT fs body reg = calls ++ [open path "utf-8"]) /\
  contributed (journal DEFAULT fs body reg) Filters.CLI_DO_INIT_TASKS
  = map (init_task_item fs package_files) before /\
  Forall (fun f => fst (run DEFAULT fs body reg) f = reg f)
    [Filters.IMAGES_BUILD; Filters.IMAGES_PULL; Filters.IMAGES_PUSH;
     Filters.ENV_TEMPLATE_ROOTS; Filters.ENV_TEMPLATE_TARGETS].
Proof.
  intros Hfile Hbefore path body. subst path.
  assert (Hunreadable :
            readable fs package_files (service, template_path) = false).
  { unfold readable. cbn [snd]. now rewrite Hfile. }
  assert (Hout : loop_outcome fs package_files
                   (before ++ (service, template_path) :: after)
                 = inl (OSError errno
                          (full_path package_files template_path))).
  { rewrite (loop_outcome_first _ _ _ _ _ Hbefore Hunreadable).
    unfold load_error. cbn [snd]. now rewrite Hfile. }
  destruct (run_module_body DEFAULT fs __version__ package_files
              (before ++ (service, template_path) :: after) reg)
    as [Hrun Hreg].
  fold body in Hrun, Hreg.
  split; [now rewrite Hrun |].
  split.
  { exists (statements_before_loop __version__
            ++ loop_calls fs package_files before).
    unfold body. rewrite journal_module_body, Hout.
    rewrite (loop_calls_first fs package_files before after
               (service, template_path) errno Hbefore Hfile).
    cbn [snd]. now rewrite app_nil_r, app_assoc. }
  split.
  { unfold body. rewrite init_tasks_contributed.
    rewrite (loaded_stops _ _ _ _ _ Hunreadable).
    now rewrite (loaded_all _ _ _ Hbefore). }
  repeat constructor; rewrite Hreg; unfold registry_after; now rewrite Hout.
Qed.
End Unopenable_templates.

(** A directory where the template of the task is expected: the load ends
    with [IsADirectoryError]. *)
Lemma template_is_a_directory :
  directory_at lms_init_path (full_path sample_files (snd lms_init))
  = Failing EISDIR /\
  snd (run 50 (directory_at lms_init_path)
         (module_body "18.0.0" sample_files [lms_init]) fresh)
  = inl (IsADirectoryError lms_init_path).
Proof.
  assert (H : directory_at lms_init_path
                (full_path sample_files (snd lms_init)) = Failing EISDIR)
    by reflexivity.
  split; [exact H |].
  pose proof (unopenable_template_ends_load 50 (directory_at lms_init_path)
                "18.0.0" sample_files [] [] "lms" (snd lms_init) EISDIR
                fresh H eq_refl) as T.
  cbv zeta in T. destruct T as (T & _). exact T.
Defined.
